(** * stockmoney: the screening and analysis views of [src/index.tsx]

    A shallow embedding of the client logic of [src/index.tsx]: the
    credential slot in [localStorage], the two submit handlers
    [handleScreen] and [handleAnalyze], the settings handler [handleSave]
    and the two pure class helpers [getScoreClass] and [getRiskClass].

    Conventions of the embedding.
    - A JavaScript string is the list of its UTF-16 code units.
    - A JavaScript number is [NaN], an infinity or a finite value; finite
      doubles are rationals, and the relational operators on them are the
      comparisons of their values.
    - A React state hook is a field of a state record and its setter an
      update of that field.
    - An [async] handler is a [Task]: it either returns without awaiting,
      or reaches its single [await] with the state it has set so far, the
      request it sends, and the continuation that is run on the response. *)

From Stdlib Require Import ZArith NArith QArith String Ascii Permutation Sorted.
From stdpp Require Import gmap list.

Local Open Scope N_scope.

(** ** Strings *)

Abbreviation jsstring := (list N).

(** String literals of the source are written as in the source and decoded
    from the UTF-8 bytes of the Rocq literal to UTF-16 code units. *)
Fixpoint utf16 (s : string) : jsstring :=
  match s with
  | EmptyString => []
  | String c0 s1 =>
    let b0 := N_of_ascii c0 in
    if b0 <? 0x80 then b0 :: utf16 s1
    else
      match s1 with
      | EmptyString => [0xFFFD]
      | String c1 s2 =>
        let b1 := N.land (N_of_ascii c1) 0x3F in
        if b0 <? 0xE0 then (N.shiftl (N.land b0 0x1F) 6 + b1) :: utf16 s2
        else
          match s2 with
          | EmptyString => [0xFFFD]
          | String c2 s3 =>
            let b2 := N.land (N_of_ascii c2) 0x3F in
            if b0 <? 0xF0 then
              (N.shiftl (N.land b0 0x0F) 12 + N.shiftl b1 6 + b2) :: utf16 s3
            else
              match s3 with
              | EmptyString => [0xFFFD]
              | String c3 s4 =>
                let b3 := N.land (N_of_ascii c3) 0x3F in
                let cp := N.shiftl (N.land b0 0x07) 18 + N.shiftl b1 12
                          + N.shiftl b2 6 + b3 - 0x10000 in
                (0xD800 + N.shiftr cp 10) :: (0xDC00 + N.land cp 0x3FF) :: utf16 s4
              end
          end
      end
  end.

(** [a === b] on strings: equality of the code unit sequences. *)
Definition str_eq (a b : jsstring) : bool := bool_decide (a = b).

(** The code points that [String.prototype.trim] strips: ECMAScript's
    WhiteSpace (TAB, VT, FF, SP, NBSP, ZWNBSP and the category Zs) and
    LineTerminator (LF, CR, LS, PS). *)
Definition isWhiteSpace (c : N) : bool :=
  bool_decide (c ∈ [0x0009; 0x000B; 0x000C; 0x0020; 0x00A0; 0xFEFF;
                    0x1680; 0x2000; 0x2001; 0x2002; 0x2003; 0x2004; 0x2005;
                    0x2006; 0x2007; 0x2008; 0x2009; 0x200A; 0x202F; 0x205F;
                    0x3000;
                    0x000A; 0x000D; 0x2028; 0x2029]).

Fixpoint trimStart (s : jsstring) : jsstring :=
  match s with
  | [] => []
  | c :: s' => if isWhiteSpace c then trimStart s' else s
  end.

Definition trimEnd (s : jsstring) : jsstring := rev (trimStart (rev s)).

Definition trim (s : jsstring) : jsstring := trimEnd (trimStart s).

(** Truthiness of a string: only the empty string is falsy. *)
Definition truthy (s : jsstring) : bool :=
  match s with [] => false | _ :: _ => true end.

(** ** Numbers *)

Inductive number : Type :=
  | NaN
  | NegInf
  | Finite (q : Q)
  | PosInf.

Definition Qltb (a b : Q) : bool :=
  match (a ?= b)%Q with Lt => true | _ => false end.

Definition Qleb (a b : Q) : bool :=
  match (a ?= b)%Q with Gt => false | _ => true end.

(** [x < y]: false as soon as an operand is [NaN]. *)
Definition js_lt (x y : number) : bool :=
  match x, y with
  | NaN, _ | _, NaN => false
  | _, NegInf => false
  | NegInf, _ => true
  | PosInf, _ => false
  | Finite _, PosInf => true
  | Finite a, Finite b => Qltb a b
  end.

(** [x <= y]: false as soon as an operand is [NaN]. *)
Definition js_le (x y : number) : bool :=
  match x, y with
  | NaN, _ | _, NaN => false
  | NegInf, _ => true
  | _, PosInf => true
  | _, NegInf => false
  | PosInf, _ => false
  | Finite a, Finite b => Qleb a b
  end.

(** [x > y] and [x >= y] are [y < x] and [y <= x]. *)
Definition js_gt (x y : number) : bool := js_lt y x.
Definition js_ge (x y : number) : bool := js_le y x.

(** [x - y].  On finite operands the difference is taken exactly: the
    double that the engine computes is the rounding of that value, which
    is zero, negative or positive exactly when the value is, and the only
    use of a difference in the source is the sign test that
    [Array.prototype.sort] applies to the result of the comparator. *)
Definition js_sub (x y : number) : number :=
  match x, y with
  | NaN, _ | _, NaN => NaN
  | PosInf, PosInf | NegInf, NegInf => NaN
  | PosInf, _ | _, NegInf => PosInf
  | NegInf, _ | _, PosInf => NegInf
  | Finite a, Finite b => Finite (a - b)
  end.

Definition num (z : Z) : number := Finite (inject_Z z).

(** [x === y] on numbers: [NaN] is equal to nothing, itself included. *)
Definition js_eq (x y : number) : bool :=
  match x, y with
  | Finite a, Finite b => Qeq_bool a b
  | NegInf, NegInf | PosInf, PosInf => true
  | _, _ => false
  end.

(** The order of the values: what [s >= 85] and [s < 60] mean in the
    specification.  [NaN] is not related to anything. *)
Definition num_lt (x y : number) : Prop :=
  match x, y with
  | Finite a, Finite b => (a < b)%Q
  | NegInf, Finite _ | NegInf, PosInf | Finite _, PosInf => True
  | _, _ => False
  end.

Definition num_le (x y : number) : Prop :=
  match x, y with
  | Finite a, Finite b => (a <= b)%Q
  | NegInf, NegInf | PosInf, PosInf => True
  | NegInf, Finite _ | NegInf, PosInf | Finite _, PosInf => True
  | _, _ => False
  end.

(** ** [Array.prototype.sort]

    The comparator returns a number [v]; the element [a] is placed after
    [b] when [v > 0], before it when [v < 0], and the two keep their order
    otherwise (a [NaN] result counts as [0]).  The sort is stable
    (ECMAScript 2019).  A stable sort has one result for a given consistent
    comparator, so the algorithm can be chosen freely: insertion from the
    right, each element going in front of the first element it need not
    follow. *)
Section ArraySort.
Context {A : Type} (comparefn : A -> A -> number).

Definition sorts_after (a b : A) : bool := js_gt (comparefn a b) (num 0).

Fixpoint sort_insert (a : A) (l : list A) : list A :=
  match l with
  | [] => [a]
  | b :: l' => if sorts_after a b then b :: sort_insert a l' else a :: l
  end.

Fixpoint Array_sort (l : list A) : list A :=
  match l with
  | [] => []
  | a :: l' => sort_insert a (Array_sort l')
  end.
End ArraySort.

(** ** The stock card *)

Record KeyMetrics : Type := {
  grossMargin : jsstring;
  peRatio : jsstring
}.

Record RecommendedStock : Type := {
  name : jsstring;
  ticker : jsstring;
  exchange : jsstring;
  score : number;
  thesis : jsstring;
  keyMetrics : KeyMetrics
}.

Module StockCard.

Definition getScoreClass (score : number) : jsstring :=
  if js_ge score (num 85) then utf16 "high"
  else if js_ge score (num 60) then utf16 "medium"
  else utf16 "low".

End StockCard.

(** ** The credential slot *)

(** [localStorage]: a map from key strings to value strings; [getItem]
    gives [null] (here [None]) on an absent key and [setItem] overwrites. *)
Abbreviation Storage := (gmap jsstring jsstring).

Definition getItem (localStorage : Storage) (key : jsstring) : option jsstring :=
  localStorage !! key.

Definition setItem (localStorage : Storage) (key value : jsstring) : Storage :=
  <[key := value]> localStorage.

Definition getApiKey (localStorage : Storage) : option jsstring :=
  getItem localStorage (utf16 "gemini_api_key").

(** [!apiKey] on [string | null]: true on [null] and on the empty string. *)
Definition falsy (v : option jsstring) : bool :=
  match v with
  | None => true
  | Some s => negb (truthy s)
  end.

(** ** Response schemas *)

Inductive SchemaType : Type := ARRAY | OBJECT | STRING | NUMBER.

#[warnings="-register-all"]
Inductive Schema : Type := Build_Schema {
  type : SchemaType;
  description : option jsstring;
  enum : option (list jsstring);
  items : option Schema;
  properties : option (list (jsstring * Schema));
  required : option (list jsstring)
}.

Definition leaf (t : SchemaType) (d : option jsstring) : Schema :=
  {| type := t; description := d; enum := None; items := None;
     properties := None; required := None |}.

Definition string_enum (values : list jsstring) : Schema :=
  {| type := STRING; description := None; enum := Some values; items := None;
     properties := None; required := None |}.

Definition array (d : option jsstring) (item : Schema) : Schema :=
  {| type := ARRAY; description := d; enum := None; items := Some item;
     properties := None; required := None |}.

Definition object (props : list (string * Schema)) (req : option (list string)) : Schema :=
  {| type := OBJECT; description := None; enum := None; items := None;
     properties := Some (map (fun p => (utf16 (fst p), snd p)) props);
     required := map utf16 <$> req |}.

Definition screenerSchema : Schema :=
  array None
    (object
       [("name", leaf STRING (Some (utf16 "公司全称")));
        ("ticker", leaf STRING (Some (utf16 "股票代码")));
        ("exchange", leaf STRING (Some (utf16 "交易所, 例如：深交所, NASDAQ")));
        ("score", leaf NUMBER (Some (utf16 "综合评分 (1-100)，代表该股票与筛选标准的匹配程度")));
        ("thesis", leaf STRING (Some (utf16 "投资论点摘要，解释为何推荐该股票及其竞争优势")));
        ("keyMetrics",
         object
           [("grossMargin", leaf STRING (Some (utf16 "最新财报毛利率 (例如 '55.2%')")));
            ("peRatio", leaf STRING (Some (utf16 "市盈率 TTM (例如 '约32倍')")))]
           (Some ["grossMargin"; "peRatio"]))]
       (Some ["name"; "ticker"; "exchange"; "score"; "thesis"; "keyMetrics"]))%string.

Definition valueComment : Schema :=
  (object [("value", leaf STRING None); ("comment", leaf STRING None)] None)%string.

Definition analysisSchema : Schema :=
  (object
    [("companyProfile",
      object
        [("name", leaf STRING None);
         ("ticker", leaf STRING None);
         ("exchange", leaf STRING None);
         ("industry", leaf STRING None);
         ("description", leaf STRING None)]
        (Some ["name"; "ticker"; "exchange"; "industry"; "description"]));
     ("financialSummary",
      array
        (Some (utf16 "包含多个财报周期的数组，必须包含最近一个完整财年和当前年度已公布的所有季度。"))
        (object
           [("period", leaf STRING (Some (utf16 "财报对应的周期, e.g., '2024年度', '2025年第一季度'")));
            ("revenue", valueComment);
            ("netProfit", valueComment);
            ("grossMargin", valueComment);
            ("peRatio", valueComment)]
           (Some ["period"; "revenue"; "netProfit"; "grossMargin"; "peRatio"])));
     ("swotAnalysis",
      object
        [("strengths", array None (leaf STRING None));
         ("weaknesses", array None (leaf STRING None));
         ("opportunities", array None (leaf STRING None));
         ("threats", array None (leaf STRING None))]
        (Some ["strengths"; "weaknesses"; "opportunities"; "threats"]));
     ("investmentThesis",
      object
        [("bull", leaf STRING None); ("bear", leaf STRING None)]
        (Some ["bull"; "bear"]));
     ("riskAnalysis",
      object
        [("rating", string_enum [utf16 "高风险"; utf16 "中等风险"; utf16 "低风险"]);
         ("summary", leaf STRING None);
         ("keyFactors", array None (leaf STRING None))]
        (Some ["rating"; "summary"; "keyFactors"]));
     ("conclusion", leaf STRING None)]
    (Some ["companyProfile"; "financialSummary"; "swotAnalysis";
           "investmentThesis"; "riskAnalysis"; "conclusion"]))%string.

(** ** The generation call and the handlers' control flow *)

(** What [new GoogleGenAI({ apiKey }).models.generateContent(...)] is
    given. *)
Record GenerateContentParameters : Type := {
  apiKey : jsstring;
  model : jsstring;
  contents : jsstring;
  responseMimeType : jsstring;
  responseSchema : Schema
}.

(** What the awaited call gives back: the promise rejects (an exception
    at the [await]), or it resolves to a response whose [text] is a string
    or [undefined]. *)
Inductive GenerateContentResponse : Type :=
  | Rejects
  | Resolves (text : option jsstring).

(** An [async] handler with one [await], over the component state [S]. *)
Inductive Task (S : Type) : Type :=
  | Returns (s : S)
  | Awaits (s : S) (request : GenerateContentParameters)
           (resume : GenerateContentResponse -> S -> S).
Arguments Returns {S} s.
Arguments Awaits {S} s request resume.

(** The remote calls a handler issues. *)
Definition issued {S : Type} (t : Task S) : list GenerateContentParameters :=
  match t with
  | Returns _ => []
  | Awaits _ request _ => [request]
  end.

(** Running a handler to completion against a remote endpoint: the final
    state and the calls that were made. *)
Definition run {S : Type} (remote : GenerateContentParameters -> GenerateContentResponse)
    (t : Task S) : S * list GenerateContentParameters :=
  match t with
  | Returns s => (s, [])
  | Awaits s request resume => (resume (remote request) s, [request])
  end.

(** [JSON.parse(text) as T]: [None] when [JSON.parse] throws.  The cast is
    not checked at run time; the embedding follows the declared type, so a
    payload that parses to a value of another shape is outside it. *)
Class JSON (T : Type) : Type := JSON_parse : jsstring -> option T.

Definition dquote : jsstring := [0x22].

(** ** The screening view *)

Module StockScreener.

Record State : Type := {
  criteria : jsstring;
  loading : bool;
  error : jsstring;
  screenerResults : option (list RecommendedStock)
}.

Definition initial : State :=
  {| criteria := []; loading := false; error := []; screenerResults := None |}.

Definition setCriteria (v : jsstring) (st : State) : State :=
  {| criteria := v; loading := loading st; error := error st;
     screenerResults := screenerResults st |}.

Definition setLoading (v : bool) (st : State) : State :=
  {| criteria := criteria st; loading := v; error := error st;
     screenerResults := screenerResults st |}.

Definition setError (v : jsstring) (st : State) : State :=
  {| criteria := criteria st; loading := loading st; error := v;
     screenerResults := screenerResults st |}.

Definition setScreenerResults (v : option (list RecommendedStock)) (st : State) : State :=
  {| criteria := criteria st; loading := loading st; error := error st;
     screenerResults := v |}.

Definition missingCredential : jsstring :=
  utf16 "请先在“设置”页面中配置您的 Gemini API Key。".

Definition emptyInput : jsstring := utf16 "请输入您的选股标准。".

Definition generationFailure : jsstring :=
  utf16 "筛选失败。请检查您的API Key是否有效，调整您的标准或稍后重试。".

Definition prompt (criteria : jsstring) : jsstring :=
  utf16 "
                你是一位顶级的量化投资分析师。你的任务是根据用户提供的选股标准，精准地筛选出3-5只最符合的A股或美股市场的股票。

                **核心任务：** 你的评分逻辑必须严格量化。
                1.  **解析数值标准：** 首先，仔细解析用户输入的“选股标准”，识别出所有具体的数值要求，例如“毛利率高于50%”、“市盈率低于30倍”、“市值大于1000亿”等。
                2.  **量化匹配与评分：** 你的核心工作是根据这些数值标准来计算综合评分（1-100）。
                    -   如果一只股票完美满足或超越了所有数值标准（例如，用户要求毛利率 > 50%，而公司毛利率为65%），它应该获得非常高的基础分（例如85分以上）。
                    -   如果只是部分满足或接近标准（例如，用户要求市盈率 < 20，而公司市盈率为22），评分应相应降低。
                    -   除了数值标准外，再结合投资论点、竞争优势等定性因素，对基础分进行微调，得出最终的综合评分。
                3.  **结果输出：** 对于每一只股票，请提供其公司名称、股票代码、交易所、严格量化后的综合评分、解释其竞争优势的投资论点，以及最新的毛利率和市盈率TTM。

                **用户选股标准: "
  ++ dquote
  ++ criteria
  ++ dquote
  ++ utf16 "**

                请严格按照提供的JSON schema格式返回一个包含推荐股票的数组。所有内容必须使用简体中文。
            ".

(** The comparator [(a, b) => b.score - a.score]. *)
Definition byScoreDescending (a b : RecommendedStock) : number :=
  js_sub (score b) (score a).

Section Handler.
Context {parse : JSON (list RecommendedStock)}.

(** The [try] block from the response on; [None] when it throws. *)
Definition received (response : GenerateContentResponse)
    : option (list RecommendedStock) :=
  match response with
  | Rejects => None
  | Resolves text =>
    text ← text;
    let resultText := trim text in
    resultData ← JSON_parse resultText;
    Some (Array_sort byScoreDescending resultData)
  end.

Definition handleScreen (localStorage : Storage) (st : State) : Task State :=
  let apiKey := getApiKey localStorage in
  if falsy apiKey then Returns (setError missingCredential st)
  else if negb (truthy (trim (criteria st))) then Returns (setError emptyInput st)
  else
    Awaits
      (setScreenerResults None (setError [] (setLoading true st)))
      {| apiKey := default [] apiKey;
         model := utf16 "gemini-2.5-flash";
         contents := prompt (criteria st);
         responseMimeType := utf16 "application/json";
         responseSchema := screenerSchema |}
      (fun response now =>
         setLoading false
           match received response with
           | Some resultData => setScreenerResults (Some resultData) now
           | None => setError generationFailure now
           end).
End Handler.

(** What the user can do in the mounted view: edit the text area, or
    press the button. *)
Inductive Action : Type :=
  | Edit (v : jsstring)
  | Submit (localStorage : Storage).

Definition act {parse : JSON (list RecommendedStock)} (a : Action) (st : State) : Task State :=
  match a with
  | Edit v => Returns (setCriteria v st)
  | Submit localStorage => handleScreen localStorage st
  end.

End StockScreener.

(** ** The analysis view *)

Module StockAnalysis.

Record Metric : Type := { value : jsstring; comment : jsstring }.

Record FinancialPeriod : Type := {
  period : jsstring;
  revenue : Metric;
  netProfit : Metric;
  grossMargin : Metric;
  peRatio : Metric
}.

Record CompanyProfile : Type := {
  name : jsstring;
  ticker : jsstring;
  exchange : jsstring;
  industry : jsstring;
  description : jsstring
}.

Record SwotAnalysis : Type := {
  strengths : list jsstring;
  weaknesses : list jsstring;
  opportunities : list jsstring;
  threats : list jsstring
}.

Record InvestmentThesis : Type := { bull : jsstring; bear : jsstring }.

Record RiskAnalysis : Type := {
  rating : jsstring;
  summary : jsstring;
  keyFactors : list jsstring
}.

Record t : Type := {
  companyProfile : CompanyProfile;
  financialSummary : list FinancialPeriod;
  swotAnalysis : SwotAnalysis;
  investmentThesis : InvestmentThesis;
  riskAnalysis : RiskAnalysis;
  conclusion : jsstring
}.

End StockAnalysis.

Abbreviation StockAnalysis := StockAnalysis.t.

Module StockAnalyzer.

Record State : Type := {
  ticker : jsstring;
  loading : bool;
  error : jsstring;
  analysis : option StockAnalysis
}.

Definition initial : State :=
  {| ticker := []; loading := false; error := []; analysis := None |}.

Definition setTicker (v : jsstring) (st : State) : State :=
  {| ticker := v; loading := loading st; error := error st; analysis := analysis st |}.

Definition setLoading (v : bool) (st : State) : State :=
  {| ticker := ticker st; loading := v; error := error st; analysis := analysis st |}.

Definition setError (v : jsstring) (st : State) : State :=
  {| ticker := ticker st; loading := loading st; error := v; analysis := analysis st |}.

Definition setAnalysis (v : option StockAnalysis) (st : State) : State :=
  {| ticker := ticker st; loading := loading st; error := error st; analysis := v |}.

Definition missingCredential : jsstring :=
  utf16 "请先在“设置”页面中配置您的 Gemini API Key。".

Definition emptyInput : jsstring := utf16 "请输入股票代码。".

Definition generationFailure : jsstring :=
  utf16 "分析失败。请检查您的API Key是否有效、股票代码是否正确，或稍后重试。".

Definition prompt (ticker : jsstring) : jsstring :=
  utf16 "
                你是一位顶级的金融分析师。请为股票代码为 "
  ++ dquote
  ++ ticker
  ++ dquote
  ++ utf16 " 的公司生成一份专业的、深度综合分析报告。
                报告必须严格按照给定的JSON schema结构和要求输出，内容全面、数据精确、分析深刻。
                所有内容必须使用简体中文。

                报告需包含以下所有部分：
                1.  **公司概况 (companyProfile):** 公司全称、股票代码、交易所、所属行业板块，以及一段详细的公司业务描述。
                2.  **财务摘要 (financialSummary):**
                    -   **关键要求:** 此项必须为一个数组。你需要提供基于**最新可用财务报告**的数据。
                    -   **内容:** 数组应包含**最近一个完整财年**的年度数据，以及**当前年度所有已公布的季度**数据。
                    -   **示例:** 如果当前是2025年7月，且公司已发布Q2财报，则数组应包含 "
  ++ dquote
  ++ utf16 "2024年度"
  ++ dquote
  ++ utf16 "、"
  ++ dquote
  ++ utf16 "2025年第一季度"
  ++ dquote
  ++ utf16 " 和 "
  ++ dquote
  ++ utf16 "2025年第二季度"
  ++ dquote
  ++ utf16 " 三个周期的数据。
                    -   **字段:** 每个周期对象需包含：周期(period)，营业收入(revenue)，净利润(netProfit)，毛利率(grossMargin)和市盈率(peRatio)，并为每个指标提供数值和一句精炼的点评。
                3.  **SWOT分析 (swotAnalysis):** 优势、劣势、机会、威胁各至少3个关键点。
                4.  **投资论点 (investmentThesis):** 详细的看涨理由(bull)和看跌理由(bear)。
                5.  **风险分析 (riskAnalysis):** 综合风险评级(rating), 风险摘要(summary), 和至少3个主要风险因素(keyFactors)。
                6.  **综合结论 (conclusion):** 一段总结性的最终结论。
            ".

Section Handler.
Context {parse : JSON StockAnalysis}.

(** The [try] block from the response on; [None] when it throws. *)
Definition received (response : GenerateContentResponse) : option StockAnalysis :=
  match response with
  | Rejects => None
  | Resolves text =>
    text ← text;
    JSON_parse (trim text)
  end.

Definition handleAnalyze (localStorage : Storage) (st : State) : Task State :=
  let apiKey := getApiKey localStorage in
  if falsy apiKey then Returns (setError missingCredential st)
  else if negb (truthy (trim (ticker st))) then Returns (setError emptyInput st)
  else
    Awaits
      (setAnalysis None (setError [] (setLoading true st)))
      {| apiKey := default [] apiKey;
         model := utf16 "gemini-2.5-flash";
         contents := prompt (ticker st);
         responseMimeType := utf16 "application/json";
         responseSchema := analysisSchema |}
      (fun response now =>
         setLoading false
           match received response with
           | Some resultData => setAnalysis (Some resultData) now
           | None => setError generationFailure now
           end).
End Handler.

Definition getRiskClass (rating : jsstring) : jsstring :=
  if str_eq rating (utf16 "高风险") then utf16 "risk-high"
  else if str_eq rating (utf16 "中等风险") then utf16 "risk-medium"
  else if str_eq rating (utf16 "低风险") then utf16 "risk-low"
  else [].

Inductive Action : Type :=
  | Edit (v : jsstring)
  | Submit (localStorage : Storage).

Definition act {parse : JSON StockAnalysis} (a : Action) (st : State) : Task State :=
  match a with
  | Edit v => Returns (setTicker v st)
  | Submit localStorage => handleAnalyze localStorage st
  end.

End StockAnalyzer.

(** ** The settings page *)

Module SettingsPage.

Record State : Type := {
  apiKey : jsstring;
  saveMessage : jsstring
}.

Definition initial : State := {| apiKey := []; saveMessage := [] |}.

Definition setApiKey (v : jsstring) (st : State) : State :=
  {| apiKey := v; saveMessage := saveMessage st |}.

Definition setSaveMessage (v : jsstring) (st : State) : State :=
  {| apiKey := apiKey st; saveMessage := v |}.

(** The mount effect: the field is filled with the stored key, if there
    is a non-empty one. *)
Definition mounted (localStorage : Storage) : State :=
  let storedKey := getApiKey localStorage in
  if falsy storedKey then initial else setApiKey (default [] storedKey) initial.

(** A [setTimeout] registration: the delay in milliseconds and the state
    update its callback performs. *)
Record Timeout : Type := { delay : N; callback : State -> State }.

Record Saved : Type := {
  storage : Storage;
  state : State;
  timeouts : list Timeout
}.

Definition handleSave (localStorage : Storage) (st : State) : Saved :=
  {| storage := setItem localStorage (utf16 "gemini_api_key") (apiKey st);
     state := setSaveMessage (utf16 "API 密钥已成功保存！") st;
     timeouts := [ {| delay := 3000; callback := setSaveMessage [] |} ] |}.

End SettingsPage.

(** ** The application shell *)

Module App.

Inductive Page : Type := screener | analyzer | settings | training.

#[global] Instance Page_eq_dec : EqDecision Page.
Proof. solve_decision. Defined.

(** The page component that [renderPage] puts under [<main>], with its
    hook state ([TrainingPage] has none). *)
Inductive Mounted : Type :=
  | OfStockScreener (st : StockScreener.State)
  | OfStockAnalyzer (st : StockAnalyzer.State)
  | OfSettingsPage (st : SettingsPage.State)
  | OfTrainingPage.

(** [renderPage] when the page has just been selected: the component is
    mounted, its hooks take their initial values and the mount effect of
    the settings page has run. *)
Definition renderPage (localStorage : Storage) (page : Page) : Mounted :=
  match page with
  | screener => OfStockScreener StockScreener.initial
  | analyzer => OfStockAnalyzer StockAnalyzer.initial
  | settings => OfSettingsPage (SettingsPage.mounted localStorage)
  | training => OfTrainingPage
  end.

Record State : Type := {
  page : Page;
  main : Mounted
}.

Definition initial (localStorage : Storage) : State :=
  {| page := screener; main := renderPage localStorage screener |}.

(** [setPage(target)]: selecting the page that is shown changes nothing;
    selecting another one replaces the component under [<main>], whose
    state is lost, by a freshly mounted one. *)
Definition setPage (localStorage : Storage) (target : Page) (st : State) : State :=
  if decide (page st = target) then st
  else {| page := target; main := renderPage localStorage target |}.

(** The navigation bar: the buttons in the order of the source, each with
    the page its click selects, its class and its label. *)
Record NavButton : Type := {
  onClick : Page;
  className : jsstring;
  label : jsstring
}.

Definition navButton (page target : Page) (label : string) : NavButton :=
  {| onClick := target;
     className := if decide (page = target) then utf16 "active" else [];
     label := utf16 label |}.

Definition nav (page : Page) : list NavButton :=
  [ navButton page screener "智能选股";
    navButton page analyzer "个股分析";
    navButton page training "使用教程";
    navButton page settings "设置" ].

End App.

(** ** Reading a schema *)

(** [schema.properties[name]]. *)
Definition property (name : string) (schema : option Schema) : option Schema :=
  schema ← schema;
  props ← properties schema;
  snd <$> List.find (fun p => str_eq (fst p) (utf16 name)) props.

(** The values that [analysisSchema] allows for [riskAnalysis.rating]. *)
Definition ratingEnum : option (list jsstring) :=
  rating ← property "rating" (property "riskAnalysis" (Some analysisSchema));
  enum rating.

(** ** Notions of the specification *)

(** A string is blank when it is empty or made of white space only. *)
Definition blank (s : jsstring) : bool := forallb isWhiteSpace s.

(** Non-increasing by score: every element's score is at least that of
    every later element. *)
Definition scoreDescending (l : list RecommendedStock) : Prop :=
  StronglySorted (fun a b => num_le (score b) (score a)) l.

(** The class that [StockCard] gives to the score box of a stock. *)
Definition cardClass (stock : RecommendedStock) : jsstring :=
  StockCard.getScoreClass (score stock).

(** ** Sample data

    A mocked endpoint and a parser that knows its one payload, with the
    candidates of the specification's screening example (scores 58 and 92,
    the lower one first in the payload). *)
Module Sample.

Definition quoted (s : string) : jsstring := dquote ++ utf16 s ++ dquote.

Definition candidate (ticker : string) (score : Z) : RecommendedStock :=
  {| name := utf16 ticker; ticker := utf16 ticker; exchange := utf16 "NASDAQ";
     score := num score; thesis := utf16 "moat";
     keyMetrics := {| grossMargin := utf16 "65%"; peRatio := utf16 "20" |} |}.

Definition payload : jsstring :=
  utf16 " [{" ++ quoted "ticker" ++ utf16 ":" ++ quoted "LOW" ++ utf16 ","
    ++ quoted "score" ++ utf16 ":58},{"
    ++ quoted "ticker" ++ utf16 ":" ++ quoted "TOP" ++ utf16 ","
    ++ quoted "score" ++ utf16 ":92}] ".

Definition parseStocks : JSON (list RecommendedStock) :=
  fun text =>
    if str_eq text (trim payload) then Some [candidate "LOW" 58; candidate "TOP" 92]
    else None.

Definition parseNothing (T : Type) : JSON T := fun _ => None.

Definition answers (text : jsstring) : GenerateContentParameters -> GenerateContentResponse :=
  fun _ => Resolves (Some text).

Definition keyed : Storage := {[ utf16 "gemini_api_key" := utf16 "AIza-sample" ]}.

Definition criteria : jsstring := utf16 "毛利率高于60%，市盈率低于25倍的消费股".

Definition screening : StockScreener.State :=
  StockScreener.setCriteria criteria StockScreener.initial.

Definition analysing : StockAnalyzer.State :=
  StockAnalyzer.setTicker (utf16 "AAPL") StockAnalyzer.initial.

(** The request that [handleScreen] sends from [keyed] and [screening]. *)
Definition screenRequest : GenerateContentParameters :=
  {| apiKey := utf16 "AIza-sample";
     model := utf16 "gemini-2.5-flash";
     contents := StockScreener.prompt criteria;
     responseMimeType := utf16 "application/json";
     responseSchema := screenerSchema |}.

(** The request that [handleAnalyze] sends from [keyed] and [analysing]. *)
Definition analyzeRequest : GenerateContentParameters :=
  {| apiKey := utf16 "AIza-sample";
     model := utf16 "gemini-2.5-flash";
     contents := StockAnalyzer.prompt (utf16 "AAPL");
     responseMimeType := utf16 "application/json";
     responseSchema := analysisSchema |}.

(** Input of white space only: a space, a tab, an ideographic space. *)
Definition spaces : jsstring := [0x20; 0x09; 0x3000].

(** A report, the parser that knows the one payload standing for it, and
    a screening view that shows an earlier result. *)
Definition report : StockAnalysis :=
  {| StockAnalysis.companyProfile :=
       {| StockAnalysis.name := utf16 "Apple Inc.";
          StockAnalysis.ticker := utf16 "AAPL";
          StockAnalysis.exchange := utf16 "NASDAQ";
          StockAnalysis.industry := utf16 "Consumer electronics";
          StockAnalysis.description := utf16 "Designs phones and computers." |};
     StockAnalysis.financialSummary := [];
     StockAnalysis.swotAnalysis :=
       {| StockAnalysis.strengths := [utf16 "brand"];
          StockAnalysis.weaknesses := [];
          StockAnalysis.opportunities := [];
          StockAnalysis.threats := [] |};
     StockAnalysis.investmentThesis :=
       {| StockAnalysis.bull := utf16 "services"; StockAnalysis.bear := utf16 "valuation" |};
     StockAnalysis.riskAnalysis :=
       {| StockAnalysis.rating := utf16 "高风险";
          StockAnalysis.summary := utf16 "concentrated supply chain";
          StockAnalysis.keyFactors := [] |};
     StockAnalysis.conclusion := utf16 "hold" |}.

Definition reportPayload : jsstring := utf16 "{report of AAPL}".

Definition parseReport : JSON StockAnalysis :=
  fun text => if str_eq text reportPayload then Some report else None.

Definition showing : StockScreener.State :=
  StockScreener.setScreenerResults (Some [candidate "OLD" 70]) screening.

Definition rejects : GenerateContentParameters -> GenerateContentResponse :=
  fun _ => Rejects.

End Sample.

(** * Properties *)

(** ** Numbers: the operators against the order of the values *)

Lemma Qltb_lt (a b : Q) : Qltb a b = true <-> (a < b)%Q.
Proof.
  unfold Qltb. rewrite Qlt_alt.
  destruct (a ?= b)%Q; split; congruence.
Qed.

Lemma Qleb_le (a b : Q) : Qleb a b = true <-> (a <= b)%Q.
Proof.
  unfold Qleb. rewrite Qle_alt.
  destruct (a ?= b)%Q; split; congruence.
Qed.

Lemma js_lt_num_lt (x y : number) : js_lt x y = true <-> num_lt x y.
Proof.
  destruct x, y; simpl; try apply Qltb_lt; split; (congruence || tauto).
Qed.

Lemma js_le_num_le (x y : number) : js_le x y = true <-> num_le x y.
Proof.
  destruct x, y; simpl; try apply Qleb_le; split; (congruence || tauto).
Qed.

(** Two numbers are comparable as soon as neither is [NaN]. *)
Lemma not_js_le_num_lt (x y : number) :
  x <> NaN -> y <> NaN -> js_le x y = false <-> num_lt y x.
Proof.
  intros Hx Hy. destruct x, y; simpl; try congruence; try (split; (congruence || tauto)).
  rewrite <- not_true_iff_false, Qleb_le. split.
  - apply Qnot_le_lt.
  - apply Qlt_not_le.
Qed.

Lemma num_lt_le (x y : number) : num_lt x y -> num_le x y.
Proof. destruct x, y; simpl; auto using Qlt_le_weak. Qed.

Lemma num_le_trans (x y z : number) : num_le x y -> num_le y z -> num_le x z.
Proof.
  destruct x, y, z; simpl; try tauto. apply Qle_trans.
Qed.

Lemma num_lt_le_trans (x y z : number) : num_lt x y -> num_le y z -> num_lt x z.
Proof.
  destruct x, y, z; simpl; try tauto. apply Qlt_le_trans.
Qed.

Lemma num_lt_not_le (x y : number) : num_lt x y -> ~ num_le y x.
Proof.
  destruct x, y; simpl; try tauto. apply Qlt_not_le.
Qed.

Lemma number_NaN_dec (x : number) : {x = NaN} + {x <> NaN}.
Proof. destruct x; (left; reflexivity) || (right; discriminate). Qed.

(** ** The score class *)

Lemma score_classes_distinct :
  utf16 "high" <> utf16 "medium" /\ utf16 "high" <> utf16 "low"
  /\ utf16 "medium" <> utf16 "low".
Proof. repeat split; discriminate. Qed.

(** C1, as stated, fails at [NaN]: both tests of [getScoreClass] are false
    there, so the class is ["low"], and [NaN < 60] does not hold. *)
Lemma getScoreClass_NaN_counterexample :
  ~ (StockCard.getScoreClass NaN = utf16 "low" <-> num_lt NaN (num 60)).
Proof.
  intros [H _]. exact (H eq_refl).
Qed.

(** C1 (amended): for every number [s], the class is ["high"] exactly when
    [s >= 85], ["medium"] exactly when [60 <= s < 85], and ["low"] exactly
    when [s < 60] or [s] is [NaN]. *)
Theorem getScoreClass_tiers (s : number) :
  (StockCard.getScoreClass s = utf16 "high" <-> num_le (num 85) s)
  /\ (StockCard.getScoreClass s = utf16 "medium"
      <-> num_le (num 60) s /\ num_lt s (num 85))
  /\ (StockCard.getScoreClass s = utf16 "low" <-> num_lt s (num 60) \/ s = NaN).
Proof.
  destruct score_classes_distinct as (Hhm & Hhl & Hml).
  assert (H6085 : num_le (num 60) (num 85)) by (vm_compute; discriminate).
  unfold StockCard.getScoreClass, js_ge.
  destruct (number_NaN_dec s) as [-> | Hs].
  { simpl. split; [| split]; split; try tauto; try congruence; auto. }
  destruct (js_le (num 85) s) eqn:H85.
  - apply js_le_num_le in H85. split; [| split]; split; auto; try congruence.
    + intros [_ Hlt]. destruct (num_lt_not_le _ _ Hlt H85).
    + intros [Hlt | ?]; [| congruence].
      destruct (num_lt_not_le s (num 85)); auto.
      eapply num_lt_le_trans; eauto.
  - assert (H85' : num_lt s (num 85)) by (apply not_js_le_num_lt; auto; discriminate).
    destruct (js_le (num 60) s) eqn:H60.
    + apply js_le_num_le in H60. split; [| split]; split; auto; try congruence.
      * intros H. destruct (num_lt_not_le _ _ H85' H).
      * intros [Hlt | ?]; [| congruence]. destruct (num_lt_not_le _ _ Hlt H60).
    + assert (H60' : num_lt s (num 60)) by (apply not_js_le_num_lt; auto; discriminate).
      split; [| split]; split; auto; try congruence.
      * intros H. destruct (num_lt_not_le _ _ H85' H).
      * intros [H _]. destruct (num_lt_not_le _ _ H60' H).
Qed.

(** ** The risk class *)

Lemma str_eq_true (a b : jsstring) : str_eq a b = true <-> a = b.
Proof. unfold str_eq. apply bool_decide_eq_true. Qed.

Lemma str_eq_false (a b : jsstring) : str_eq a b = false <-> a <> b.
Proof. unfold str_eq. apply bool_decide_eq_false. Qed.

(** C7: the risk class is decided by equality of the rating with the three
    enum values: ["高风险"] gives ["risk-high"], ["中等风险"] gives
    ["risk-medium"], ["低风险"] gives ["risk-low"], and no other rating
    gives any of these classes. *)
Theorem getRiskClass_exact_match (rating : jsstring) :
  (StockAnalyzer.getRiskClass rating = utf16 "risk-high" <-> rating = utf16 "高风险")
  /\ (StockAnalyzer.getRiskClass rating = utf16 "risk-medium"
      <-> rating = utf16 "中等风险")
  /\ (StockAnalyzer.getRiskClass rating = utf16 "risk-low" <-> rating = utf16 "低风险").
Proof.
  unfold StockAnalyzer.getRiskClass.
  destruct (str_eq rating (utf16 "高风险")) eqn:Hh.
  { apply str_eq_true in Hh. subst rating.
    split; [| split]; split; auto; discriminate. }
  destruct (str_eq rating (utf16 "中等风险")) eqn:Hm.
  { apply str_eq_true in Hm. subst rating.
    split; [| split]; split; auto; discriminate. }
  destruct (str_eq rating (utf16 "低风险")) eqn:Hl.
  { apply str_eq_true in Hl. subst rating.
    split; [| split]; split; auto; discriminate. }
  apply str_eq_false in Hh, Hm, Hl.
  split; [| split]; split; try discriminate; intros; contradiction.
Qed.

(** C10: [getRiskClass] is total, and on every rating other than the three
    enum values it returns the empty class string. *)
Theorem getRiskClass_other (rating : jsstring) :
  rating <> utf16 "高风险" ->
  rating <> utf16 "中等风险" ->
  rating <> utf16 "低风险" ->
  StockAnalyzer.getRiskClass rating = [].
Proof.
  intros Hh Hm Hl. unfold StockAnalyzer.getRiskClass.
  apply str_eq_false in Hh, Hm, Hl. rewrite Hh, Hm, Hl. reflexivity.
Qed.

Lemma getRiskClass_other_witness :
  StockAnalyzer.getRiskClass (utf16 "high risk") = [].
Proof.
  apply (getRiskClass_other (utf16 "high risk")); vm_compute; discriminate.
Defined.

(** ** The credential slot *)

Lemma getApiKey_setItem (localStorage : Storage) (v : jsstring) :
  getApiKey (setItem localStorage (utf16 "gemini_api_key") v) = Some v.
Proof. unfold getApiKey, getItem, setItem. apply lookup_insert_eq. Qed.

(** C6: after [handleSave] with the string [v] in the settings field,
    [getApiKey] returns exactly [v], whatever the storage held before. *)
Theorem credential_round_trip (v : jsstring) (localStorage : Storage)
    (st : SettingsPage.State) :
  getApiKey
    (SettingsPage.storage
       (SettingsPage.handleSave localStorage (SettingsPage.setApiKey v st)))
  = Some v.
Proof. simpl. apply getApiKey_setItem. Qed.

(** ** [Array.prototype.sort] *)

Section ArraySortFacts.
Context {A : Type} (comparefn : A -> A -> number).

Lemma sort_insert_perm (a : A) (l : list A) :
  Permutation (sort_insert comparefn a l) (a :: l).
Proof.
  induction l as [| b l IH]; simpl.
  - reflexivity.
  - destruct (sorts_after comparefn a b).
    + rewrite IH. apply perm_swap.
    + reflexivity.
Qed.

Lemma Array_sort_perm (l : list A) : Permutation (Array_sort comparefn l) l.
Proof.
  induction l as [| a l IH]; simpl.
  - reflexivity.
  - rewrite sort_insert_perm. now apply perm_skip.
Qed.

(** Order.  [R] is the order the result should have, [D] the elements on
    which the comparator decides it. *)
Section Sorted.
Context (R : A -> A -> Prop) (D : A -> Prop).
Hypothesis R_trans : forall a b c, R a b -> R b c -> R a c.
Hypothesis after_R : forall a b, sorts_after comparefn a b = true -> R b a.
Hypothesis not_after_R :
  forall a b, D a -> D b -> sorts_after comparefn a b = false -> R a b.

Lemma sort_insert_sorted (a : A) (l : list A) :
  D a -> Forall D l ->
  StronglySorted R l -> StronglySorted R (sort_insert comparefn a l).
Proof.
  intros Da Dl Hl. induction Hl as [| b l Hl IH Hb]; simpl.
  - constructor; constructor.
  - inversion Dl as [| ? ? Db Dl']; subst.
    destruct (sorts_after comparefn a b) eqn:Hab.
    + constructor; [now apply IH |].
      rewrite (sort_insert_perm a l). constructor; auto.
    + constructor; [now constructor |].
      assert (Rab : R a b) by auto.
      constructor; [exact Rab |].
      eapply Forall_impl; [exact Hb |]. simpl. eauto.
Qed.

Lemma Array_sort_sorted (l : list A) :
  Forall D l -> StronglySorted R (Array_sort comparefn l).
Proof.
  induction 1 as [| a l Da Dl IH]; simpl.
  - constructor.
  - apply sort_insert_sorted; auto.
    now rewrite (Array_sort_perm l).
Qed.
End Sorted.

(** Stability.  [P] selects elements none of which sorts after another:
    the selected elements come out in the order they went in. *)
Section Stable.
Context (P : A -> bool).
Hypothesis P_tied :
  forall a b, P a = true -> P b = true -> sorts_after comparefn a b = false.

Lemma sort_insert_filter (a : A) (l : list A) :
  List.filter P (sort_insert comparefn a l) = List.filter P (a :: l).
Proof.
  induction l as [| b l IH]; simpl.
  - reflexivity.
  - destruct (sorts_after comparefn a b) eqn:Hab; [| reflexivity].
    simpl. rewrite IH. simpl.
    destruct (P a) eqn:Pa, (P b) eqn:Pb; try reflexivity.
    rewrite P_tied in Hab by assumption. discriminate.
Qed.

Lemma Array_sort_filter (l : list A) :
  List.filter P (Array_sort comparefn l) = List.filter P l.
Proof.
  induction l as [| a l IH]; simpl.
  - reflexivity.
  - rewrite sort_insert_filter. simpl. now rewrite IH.
Qed.
End Stable.
End ArraySortFacts.

(** ** The comparator of the screening view *)

Lemma js_sub_positive (x y : number) :
  js_gt (js_sub x y) (num 0) = js_lt y x.
Proof.
  destruct x as [| | a |], y as [| | b |]; try reflexivity.
  unfold js_gt, num. simpl.
  apply eq_true_iff_eq. rewrite !Qltb_lt.
  rewrite (Qlt_minus_iff b a). reflexivity.
Qed.

(** [a] sorts after [b] exactly when its score is lower. *)
Lemma sorts_after_byScoreDescending (a b : RecommendedStock) :
  sorts_after StockScreener.byScoreDescending a b = js_lt (score a) (score b).
Proof.
  unfold sorts_after, StockScreener.byScoreDescending. apply js_sub_positive.
Qed.

Lemma sort_byScore_descending (l : list RecommendedStock) :
  Forall (fun r => score r <> NaN) l ->
  scoreDescending (Array_sort StockScreener.byScoreDescending l).
Proof.
  apply Array_sort_sorted.
  - intros a b c Hab Hbc. eapply num_le_trans; eauto.
  - intros a b. rewrite sorts_after_byScoreDescending, js_lt_num_lt.
    apply num_lt_le.
  - intros a b Ha Hb. rewrite sorts_after_byScoreDescending. intros Hlt.
    destruct (js_le (score b) (score a)) eqn:Hle.
    + now apply js_le_num_le.
    + apply not_js_le_num_lt in Hle; auto.
      apply js_lt_num_lt in Hle. congruence.
Qed.

Lemma js_eq_not_lt (x y v : number) :
  js_eq x v = true -> js_eq y v = true -> js_lt x y = false.
Proof.
  destruct x as [| | a |], y as [| | b |], v as [| | c |]; simpl; try congruence.
  rewrite !Qeq_bool_iff. intros Ha Hb.
  apply not_true_iff_false. rewrite Qltb_lt, Ha, Hb. apply Qlt_irrefl.
Qed.

Lemma sort_byScore_stable (v : number) (l : list RecommendedStock) :
  List.filter (fun r => js_eq (score r) v) (Array_sort StockScreener.byScoreDescending l)
  = List.filter (fun r => js_eq (score r) v) l.
Proof.
  apply Array_sort_filter. intros a b Ha Hb.
  rewrite sorts_after_byScoreDescending. eapply js_eq_not_lt; eauto.
Qed.

(** ** The stable sort is determined by its specification

    Whatever algorithm the engine runs, a result that holds the elements of
    the input, is non-increasing by score and keeps the input order inside
    each class of equal scores is the list that [Array_sort] computes. *)

Lemma js_eq_refl (x : number) : x <> NaN -> js_eq x x = true.
Proof.
  destruct x; simpl; try congruence. intros _. apply Qeq_bool_iff. reflexivity.
Qed.

Lemma js_eq_false_lt (x y : number) :
  x <> NaN -> y <> NaN -> js_eq x y = false -> num_lt x y \/ num_lt y x.
Proof.
  destruct x as [| | a |], y as [| | b |]; simpl; try congruence; auto.
  intros _ _ H. apply not_true_iff_false in H. rewrite Qeq_bool_iff in H.
  destruct (Q_dec a b) as [[Hlt | Hgt] | Heq]; auto. contradiction.
Qed.

Lemma scoreDescending_head (a b : RecommendedStock) (l : list RecommendedStock) :
  scoreDescending (a :: l) -> In b l -> num_le (score b) (score a).
Proof.
  intros H Hb. inversion H as [| ? ? _ Hall]; subst.
  rewrite List.Forall_forall in Hall. auto.
Qed.

Lemma scoreDescending_stable_unique (l1 l2 : list RecommendedStock) :
  Forall (fun r => score r <> NaN) l1 ->
  Permutation l1 l2 ->
  scoreDescending l1 ->
  scoreDescending l2 ->
  (forall v, List.filter (fun r => js_eq (score r) v) l1
             = List.filter (fun r => js_eq (score r) v) l2) ->
  l1 = l2.
Proof.
  revert l2. induction l1 as [| x t1 IH]; intros l2 Hnum Hperm Hs1 Hs2 Hst.
  - now apply Permutation_nil in Hperm.
  - destruct l2 as [| y t2].
    { symmetry in Hperm. now apply Permutation_nil in Hperm. }
    inversion Hnum as [| ? ? Hx Hnum']; subst.
    assert (Hy : score y <> NaN).
    { assert (Hin : In y (x :: t1)).
      { eapply Permutation_in; [symmetry; exact Hperm | now left]. }
      rewrite List.Forall_forall in Hnum. now apply Hnum. }
    assert (Hxy : x = y).
    { destruct (js_eq (score y) (score x)) eqn:E.
      - specialize (Hst (score x)). simpl in Hst.
        rewrite (js_eq_refl _ Hx), E in Hst. congruence.
      - exfalso. apply js_eq_false_lt in E; auto. destruct E as [Hlt | Hlt].
        + (* [x] is somewhere behind [y] in [l2] *)
          assert (Hin : In x (y :: t2)).
          { eapply Permutation_in; [exact Hperm | now left]. }
          destruct Hin as [-> | Hin].
          * destruct x; simpl in Hlt. destruct score0; simpl in Hlt; try tauto.
            now apply Qlt_irrefl in Hlt.
          * apply (num_lt_not_le _ _ Hlt).
            eapply scoreDescending_head; eauto.
        + (* [y] is somewhere behind [x] in [l1] *)
          assert (Hin : In y (x :: t1)).
          { eapply Permutation_in; [symmetry; exact Hperm | now left]. }
          destruct Hin as [-> | Hin].
          * destruct y; simpl in Hlt. destruct score0; simpl in Hlt; try tauto.
            now apply Qlt_irrefl in Hlt.
          * apply (num_lt_not_le _ _ Hlt).
            eapply scoreDescending_head; eauto. }
    subst y. f_equal. apply IH; auto.
    + eapply Permutation_cons_inv; eauto.
    + now inversion Hs1.
    + now inversion Hs2.
    + intros v. specialize (Hst v). simpl in Hst.
      destruct (js_eq (score x) v); congruence.
Qed.

Lemma Array_sort_byScore_unique (resultData rendered : list RecommendedStock) :
  Forall (fun r => score r <> NaN) resultData ->
  Permutation rendered resultData ->
  scoreDescending rendered ->
  (forall v, List.filter (fun r => js_eq (score r) v) rendered
             = List.filter (fun r => js_eq (score r) v) resultData) ->
  rendered = Array_sort StockScreener.byScoreDescending resultData.
Proof.
  intros Hnum Hperm Hsorted Hstable.
  apply scoreDescending_stable_unique; auto.
  - now rewrite Hperm.
  - rewrite Hperm. symmetry. apply Array_sort_perm.
  - now apply sort_byScore_descending.
  - intros v. rewrite Hstable. symmetry. apply sort_byScore_stable.
Qed.

(** ** Blank input *)

Lemma trimStart_nil (s : jsstring) : trimStart s = [] <-> blank s = true.
Proof.
  induction s as [| c s IH]; simpl.
  - tauto.
  - destruct (isWhiteSpace c); simpl; [exact IH |]. split; discriminate.
Qed.

Lemma trimStart_blank (s : jsstring) : blank (trimStart s) = true -> blank s = true.
Proof.
  induction s as [| c s IH]; simpl; auto.
  destruct (isWhiteSpace c) eqn:Hc; simpl; auto.
  rewrite Hc. auto.
Qed.

Lemma blank_rev (s : jsstring) : blank (rev s) = blank s.
Proof.
  unfold blank. apply eq_true_iff_eq.
  rewrite !forallb_forall. split; intros H c Hc; apply H.
  - now apply in_rev in Hc.
  - now apply in_rev.
Qed.

(** [!input.trim()] holds exactly on blank input. *)
Lemma trim_blank (s : jsstring) : truthy (trim s) = false <-> blank s = true.
Proof.
  assert (Hnil : forall t : jsstring, truthy t = false <-> t = []).
  { intros [| ? ?]; simpl; split; congruence. }
  rewrite Hnil. unfold trim, trimEnd. split.
  - intros H. apply trimStart_blank.
    rewrite <- blank_rev. apply trimStart_nil.
    rewrite <- (rev_involutive (trimStart (rev (trimStart s)))).
    rewrite H. reflexivity.
  - intros H. apply trimStart_nil in H. rewrite H. reflexivity.
Qed.

(** ** The submit handlers, case by case *)

Section Handlers.
Context {parseStocks : JSON (list RecommendedStock)}.
Context {parseAnalysis : JSON StockAnalysis}.

Lemma handleScreen_no_credential localStorage st :
  falsy (getApiKey localStorage) = true ->
  StockScreener.handleScreen localStorage st
  = Returns (StockScreener.setError StockScreener.missingCredential st).
Proof. unfold StockScreener.handleScreen. intros ->. reflexivity. Qed.

Lemma handleAnalyze_no_credential localStorage st :
  falsy (getApiKey localStorage) = true ->
  StockAnalyzer.handleAnalyze localStorage st
  = Returns (StockAnalyzer.setError StockAnalyzer.missingCredential st).
Proof. unfold StockAnalyzer.handleAnalyze. intros ->. reflexivity. Qed.

Lemma handleScreen_blank localStorage st :
  falsy (getApiKey localStorage) = false ->
  blank (StockScreener.criteria st) = true ->
  StockScreener.handleScreen localStorage st
  = Returns (StockScreener.setError StockScreener.emptyInput st).
Proof.
  unfold StockScreener.handleScreen. intros -> Hb.
  apply trim_blank in Hb. rewrite Hb. reflexivity.
Qed.

Lemma handleAnalyze_blank localStorage st :
  falsy (getApiKey localStorage) = false ->
  blank (StockAnalyzer.ticker st) = true ->
  StockAnalyzer.handleAnalyze localStorage st
  = Returns (StockAnalyzer.setError StockAnalyzer.emptyInput st).
Proof.
  unfold StockAnalyzer.handleAnalyze. intros -> Hb.
  apply trim_blank in Hb. rewrite Hb. reflexivity.
Qed.

Lemma handleScreen_calls localStorage st :
  falsy (getApiKey localStorage) = false ->
  blank (StockScreener.criteria st) = false ->
  exists request resume,
    StockScreener.handleScreen localStorage st
    = Awaits
        (StockScreener.setScreenerResults None
           (StockScreener.setError [] (StockScreener.setLoading true st)))
        request resume
    /\ forall response now,
         resume response now
         = StockScreener.setLoading false
             match StockScreener.received response with
             | Some resultData =>
               StockScreener.setScreenerResults (Some resultData) now
             | None => StockScreener.setError StockScreener.generationFailure now
             end.
Proof.
  unfold StockScreener.handleScreen. intros -> Hb.
  destruct (truthy (trim (StockScreener.criteria st))) eqn:Ht.
  - simpl. eauto.
  - apply trim_blank in Ht. congruence.
Qed.

Lemma handleAnalyze_calls localStorage st :
  falsy (getApiKey localStorage) = false ->
  blank (StockAnalyzer.ticker st) = false ->
  exists request resume,
    StockAnalyzer.handleAnalyze localStorage st
    = Awaits
        (StockAnalyzer.setAnalysis None
           (StockAnalyzer.setError [] (StockAnalyzer.setLoading true st)))
        request resume
    /\ forall response now,
         resume response now
         = StockAnalyzer.setLoading false
             match StockAnalyzer.received response with
             | Some resultData => StockAnalyzer.setAnalysis (Some resultData) now
             | None => StockAnalyzer.setError StockAnalyzer.generationFailure now
             end.
Proof.
  unfold StockAnalyzer.handleAnalyze. intros -> Hb.
  destruct (truthy (trim (StockAnalyzer.ticker st))) eqn:Ht.
  - simpl. eauto.
  - apply trim_blank in Ht. congruence.
Qed.
End Handlers.

(** ** The submit handlers against the specification *)

Section Submissions.
Context {parseStocks : JSON (list RecommendedStock)}.
Context {parseAnalysis : JSON StockAnalysis}.

Lemma handleScreen_issued localStorage st request :
  issued (StockScreener.handleScreen localStorage st) = [request] ->
  falsy (getApiKey localStorage) = false
  /\ blank (StockScreener.criteria st) = false.
Proof.
  intros H.
  destruct (falsy (getApiKey localStorage)) eqn:Hk.
  { rewrite handleScreen_no_credential in H by assumption. discriminate. }
  destruct (blank (StockScreener.criteria st)) eqn:Hb; auto.
  rewrite handleScreen_blank in H by assumption. discriminate.
Qed.

Lemma handleAnalyze_issued localStorage st request :
  issued (StockAnalyzer.handleAnalyze localStorage st) = [request] ->
  falsy (getApiKey localStorage) = false
  /\ blank (StockAnalyzer.ticker st) = false.
Proof.
  intros H.
  destruct (falsy (getApiKey localStorage)) eqn:Hk.
  { rewrite handleAnalyze_no_credential in H by assumption. discriminate. }
  destruct (blank (StockAnalyzer.ticker st)) eqn:Hb; auto.
  rewrite handleAnalyze_blank in H by assumption. discriminate.
Qed.

(** The final state of a screening submission whose call was made. *)
Lemma run_handleScreen remote localStorage st request :
  issued (StockScreener.handleScreen localStorage st) = [request] ->
  run remote (StockScreener.handleScreen localStorage st)
  = (StockScreener.setLoading false
       match StockScreener.received (remote request) with
       | Some resultData =>
         StockScreener.setScreenerResults (Some resultData)
           (StockScreener.setScreenerResults None
              (StockScreener.setError [] (StockScreener.setLoading true st)))
       | None =>
         StockScreener.setError StockScreener.generationFailure
           (StockScreener.setScreenerResults None
              (StockScreener.setError [] (StockScreener.setLoading true st)))
       end,
     [request]).
Proof.
  intros H. destruct (handleScreen_issued _ _ _ H) as [Hk Hb].
  destruct (handleScreen_calls localStorage st Hk Hb) as (rq & resume & E & Hr).
  rewrite E in *. simpl in *. injection H as ->. now rewrite Hr.
Qed.

Lemma run_handleAnalyze remote localStorage st request :
  issued (StockAnalyzer.handleAnalyze localStorage st) = [request] ->
  run remote (StockAnalyzer.handleAnalyze localStorage st)
  = (StockAnalyzer.setLoading false
       match StockAnalyzer.received (remote request) with
       | Some resultData =>
         StockAnalyzer.setAnalysis (Some resultData)
           (StockAnalyzer.setAnalysis None
              (StockAnalyzer.setError [] (StockAnalyzer.setLoading true st)))
       | None =>
         StockAnalyzer.setError StockAnalyzer.generationFailure
           (StockAnalyzer.setAnalysis None
              (StockAnalyzer.setError [] (StockAnalyzer.setLoading true st)))
       end,
     [request]).
Proof.
  intros H. destruct (handleAnalyze_issued _ _ _ H) as [Hk Hb].
  destruct (handleAnalyze_calls localStorage st Hk Hb) as (rq & resume & E & Hr).
  rewrite E in *. simpl in *. injection H as ->. now rewrite Hr.
Qed.

(** C2: when the call of a screening submission resolves to a text that
    parses to the list [resultData], the rendered list holds the same
    elements and, for every score [v], lists the elements of score [v] in
    the order they have in [resultData]; and it is non-increasing by
    score, no score being [NaN] (JSON has no literal for it, so a parsed
    payload holds none). *)
Theorem screening_results_sorted_stable remote localStorage st request text resultData :
  issued (StockScreener.handleScreen localStorage st) = [request] ->
  remote request = Resolves (Some text) ->
  JSON_parse (trim text) = Some resultData ->
  exists rendered,
    StockScreener.screenerResults
      (fst (run remote (StockScreener.handleScreen localStorage st)))
    = Some rendered
    /\ Permutation rendered resultData
    /\ (Forall (fun r => score r <> NaN) resultData -> scoreDescending rendered)
    /\ forall v,
         List.filter (fun r => js_eq (score r) v) rendered
         = List.filter (fun r => js_eq (score r) v) resultData.
Proof.
  intros Hcall Hresp Hparse.
  rewrite (run_handleScreen remote _ _ _ Hcall), Hresp. simpl.
  rewrite Hparse. simpl.
  exists (Array_sort StockScreener.byScoreDescending resultData).
  split; [reflexivity |]. split; [apply Array_sort_perm |].
  split; [apply sort_byScore_descending |].
  intros v. apply sort_byScore_stable.
Qed.

(** C3 (amended): a submission with blank input issues no remote call;
    it ends with the empty-input message when a non-empty credential is
    stored, and with the missing-credential message otherwise.  Nothing
    else of the state changes. *)
Theorem blank_input_no_call remote localStorage :
  (forall st,
     blank (StockScreener.criteria st) = true ->
     run remote (StockScreener.handleScreen localStorage st)
     = (StockScreener.setError
          (if falsy (getApiKey localStorage)
           then StockScreener.missingCredential else StockScreener.emptyInput) st,
        []))
  /\ (forall st,
        blank (StockAnalyzer.ticker st) = true ->
        run remote (StockAnalyzer.handleAnalyze localStorage st)
        = (StockAnalyzer.setError
             (if falsy (getApiKey localStorage)
              then StockAnalyzer.missingCredential else StockAnalyzer.emptyInput) st,
           [])).
Proof.
  split; intros st Hb; destruct (falsy (getApiKey localStorage)) eqn:Hk.
  - now rewrite handleScreen_no_credential.
  - now rewrite handleScreen_blank.
  - now rewrite handleAnalyze_no_credential.
  - now rewrite handleAnalyze_blank.
Qed.

(** C4: with no credential stored, a submission of either view issues no
    remote call and ends with the missing-credential message, whatever
    the input is. *)
Theorem no_credential_no_call remote localStorage screening analysing :
  getApiKey localStorage = None ->
  run remote (StockScreener.handleScreen localStorage screening)
  = (StockScreener.setError StockScreener.missingCredential screening, [])
  /\ run remote (StockAnalyzer.handleAnalyze localStorage analysing)
     = (StockAnalyzer.setError StockAnalyzer.missingCredential analysing, []).
Proof.
  intros Hk. split.
  - rewrite handleScreen_no_credential; [reflexivity | now rewrite Hk].
  - rewrite handleAnalyze_no_credential; [reflexivity | now rewrite Hk].
Qed.

(** C5: when the call of a submission resolves to a text that
    [JSON.parse] rejects, the submission ends with the generation-failure
    message, with no result in the display state and the loading flag
    down. *)
Theorem unparseable_response_fails remote localStorage text :
  (forall st request,
     issued (StockScreener.handleScreen localStorage st) = [request] ->
     remote request = Resolves (Some text) ->
     JSON_parse (T := list RecommendedStock) (trim text) = None ->
     let final := fst (run remote (StockScreener.handleScreen localStorage st)) in
     StockScreener.error final = StockScreener.generationFailure
     /\ StockScreener.screenerResults final = None
     /\ StockScreener.loading final = false)
  /\ (forall st request,
        issued (StockAnalyzer.handleAnalyze localStorage st) = [request] ->
        remote request = Resolves (Some text) ->
        JSON_parse (T := StockAnalysis) (trim text) = None ->
        let final := fst (run remote (StockAnalyzer.handleAnalyze localStorage st)) in
        StockAnalyzer.error final = StockAnalyzer.generationFailure
        /\ StockAnalyzer.analysis final = None
        /\ StockAnalyzer.loading final = false).
Proof.
  split; intros st request Hcall Hresp Hparse.
  - rewrite (run_handleScreen remote _ _ _ Hcall), Hresp. simpl.
    rewrite Hparse. simpl. auto.
  - rewrite (run_handleAnalyze remote _ _ _ Hcall), Hresp. simpl.
    rewrite Hparse. simpl. auto.
Qed.

(** C8: a submission that passes the credential check and the
    non-empty-input check reaches its remote call with the error message
    and the result already cleared; and whatever the user does in the
    mounted view that starts no call (an edit of the input, a submission
    that fails a check) leaves the result as it was. *)
Theorem results_cleared_when_attempt_starts localStorage :
  (forall st,
     falsy (getApiKey localStorage) = false ->
     blank (StockScreener.criteria st) = false ->
     exists calling request resume,
       StockScreener.handleScreen localStorage st = Awaits calling request resume
       /\ StockScreener.error calling = []
       /\ StockScreener.screenerResults calling = None)
  /\ (forall action st st',
        StockScreener.act action st = Returns st' ->
        StockScreener.screenerResults st' = StockScreener.screenerResults st)
  /\ (forall st,
        falsy (getApiKey localStorage) = false ->
        blank (StockAnalyzer.ticker st) = false ->
        exists calling request resume,
          StockAnalyzer.handleAnalyze localStorage st = Awaits calling request resume
          /\ StockAnalyzer.error calling = []
          /\ StockAnalyzer.analysis calling = None)
  /\ (forall action st st',
        StockAnalyzer.act action st = Returns st' ->
        StockAnalyzer.analysis st' = StockAnalyzer.analysis st).
Proof.
  split; [| split; [| split]].
  - intros st Hk Hb.
    destruct (handleScreen_calls localStorage st Hk Hb) as (rq & resume & E & _).
    eauto 6.
  - intros [v | ls] st st'; simpl.
    + intros [= <-]. reflexivity.
    + destruct (falsy (getApiKey ls)) eqn:Hk.
      { rewrite handleScreen_no_credential by assumption. intros [= <-]. reflexivity. }
      destruct (blank (StockScreener.criteria st)) eqn:Hb.
      { rewrite handleScreen_blank by assumption. intros [= <-]. reflexivity. }
      destruct (handleScreen_calls ls st Hk Hb) as (rq & resume & E & _).
      rewrite E. discriminate.
  - intros st Hk Hb.
    destruct (handleAnalyze_calls localStorage st Hk Hb) as (rq & resume & E & _).
    eauto 6.
  - intros [v | ls] st st'; simpl.
    + intros [= <-]. reflexivity.
    + destruct (falsy (getApiKey ls)) eqn:Hk.
      { rewrite handleAnalyze_no_credential by assumption. intros [= <-]. reflexivity. }
      destruct (blank (StockAnalyzer.ticker st)) eqn:Hb.
      { rewrite handleAnalyze_blank by assumption. intros [= <-]. reflexivity. }
      destruct (handleAnalyze_calls ls st Hk Hb) as (rq & resume & E & _).
      rewrite E. discriminate.
Qed.

(** C9: when the credential slot holds the empty string, a submission of
    either view issues no remote call and ends with the
    missing-credential message; the handlers do exactly what they do on
    a storage without the slot. *)
Theorem empty_credential_is_missing remote localStorage screening analysing :
  getApiKey localStorage = Some [] ->
  run remote (StockScreener.handleScreen localStorage screening)
  = (StockScreener.setError StockScreener.missingCredential screening, [])
  /\ run remote (StockAnalyzer.handleAnalyze localStorage analysing)
     = (StockAnalyzer.setError StockAnalyzer.missingCredential analysing, [])
  /\ forall unset : Storage,
       getApiKey unset = None ->
       StockScreener.handleScreen localStorage screening
       = StockScreener.handleScreen unset screening
       /\ StockAnalyzer.handleAnalyze localStorage analysing
          = StockAnalyzer.handleAnalyze unset analysing.
Proof.
  intros Hk.
  assert (Hf : falsy (getApiKey localStorage) = true) by now rewrite Hk.
  split; [| split].
  - now rewrite handleScreen_no_credential.
  - now rewrite handleAnalyze_no_credential.
  - intros unset Hu.
    assert (Hf' : falsy (getApiKey unset) = true) by now rewrite Hu.
    rewrite !handleScreen_no_credential, !handleAnalyze_no_credential by assumption.
    auto.
Qed.
End Submissions.

(** ** The theorems at sample inputs *)

Lemma screening_results_sorted_stable_witness :
  exists rendered,
    StockScreener.screenerResults
      (fst (run (Sample.answers Sample.payload)
              (StockScreener.handleScreen (parse := Sample.parseStocks)
                 Sample.keyed Sample.screening)))
    = Some rendered
    /\ Permutation rendered [Sample.candidate "LOW" 58; Sample.candidate "TOP" 92]
    /\ scoreDescending rendered
    /\ forall v,
         List.filter (fun r => js_eq (score r) v) rendered
         = List.filter (fun r => js_eq (score r) v)
             [Sample.candidate "LOW" 58; Sample.candidate "TOP" 92].
Proof.
  destruct (screening_results_sorted_stable (parseStocks := Sample.parseStocks)
              (Sample.answers Sample.payload) Sample.keyed Sample.screening
              Sample.screenRequest Sample.payload
              [Sample.candidate "LOW" 58; Sample.candidate "TOP" 92])
    as (rendered & Hrendered & Hperm & Hsorted & Hstable).
  - vm_compute. reflexivity.
  - reflexivity.
  - vm_compute. reflexivity.
  - exists rendered.
    split; [exact Hrendered |]. split; [exact Hperm |]. split; [| exact Hstable].
    apply Hsorted. repeat constructor; discriminate.
Defined.

(** C3, as stated, fails when no credential is stored: the credential
    check comes first, so blank input then ends with the missing-credential
    message, not with the empty-input one. *)
Lemma blank_without_credential_counterexample :
  blank (StockScreener.criteria StockScreener.initial) = true
  /\ StockScreener.error
       (fst (run (Sample.answers Sample.payload)
               (StockScreener.handleScreen (parse := Sample.parseStocks)
                  ∅ StockScreener.initial)))
     <> StockScreener.emptyInput
  /\ blank (StockAnalyzer.ticker StockAnalyzer.initial) = true
  /\ StockAnalyzer.error
       (fst (run (Sample.answers Sample.payload)
               (StockAnalyzer.handleAnalyze (parse := Sample.parseNothing _)
                  ∅ StockAnalyzer.initial)))
     <> StockAnalyzer.emptyInput.
Proof.
  split; [reflexivity |]. split; [vm_compute; discriminate |].
  split; [reflexivity |]. vm_compute; discriminate.
Qed.

Lemma blank_input_no_call_witness :
  run (Sample.answers Sample.payload)
    (StockScreener.handleScreen (parse := Sample.parseStocks) Sample.keyed
       (StockScreener.setCriteria Sample.spaces StockScreener.initial))
  = (StockScreener.setError StockScreener.emptyInput
       (StockScreener.setCriteria Sample.spaces StockScreener.initial), [])
  /\ run (Sample.answers Sample.payload)
       (StockAnalyzer.handleAnalyze (parse := Sample.parseNothing _) Sample.keyed
          (StockAnalyzer.setTicker Sample.spaces StockAnalyzer.initial))
     = (StockAnalyzer.setError StockAnalyzer.emptyInput
          (StockAnalyzer.setTicker Sample.spaces StockAnalyzer.initial), []).
Proof.
  destruct (blank_input_no_call (parseStocks := Sample.parseStocks)
              (parseAnalysis := Sample.parseNothing _)
              (Sample.answers Sample.payload) Sample.keyed) as [Hs Ha].
  pose proof (Hs (StockScreener.setCriteria Sample.spaces StockScreener.initial)
                eq_refl) as Hscreen.
  pose proof (Ha (StockAnalyzer.setTicker Sample.spaces StockAnalyzer.initial)
                eq_refl) as Hanalyze.
  vm_compute in Hscreen, Hanalyze. vm_compute. split; assumption.
Defined.

Lemma no_credential_no_call_witness :
  run (Sample.answers Sample.payload)
    (StockScreener.handleScreen (parse := Sample.parseStocks) ∅ Sample.screening)
  = (StockScreener.setError StockScreener.missingCredential Sample.screening, [])
  /\ run (Sample.answers Sample.payload)
       (StockAnalyzer.handleAnalyze (parse := Sample.parseNothing _) ∅ Sample.analysing)
     = (StockAnalyzer.setError StockAnalyzer.missingCredential Sample.analysing, []).
Proof.
  apply (no_credential_no_call (parseStocks := Sample.parseStocks)
           (parseAnalysis := Sample.parseNothing _)
           (Sample.answers Sample.payload) ∅ Sample.screening Sample.analysing).
  reflexivity.
Defined.

Lemma unparseable_response_fails_witness :
  (let final :=
     fst (run (Sample.answers (utf16 "Sorry, no JSON today"))
            (StockScreener.handleScreen (parse := Sample.parseStocks)
               Sample.keyed Sample.screening)) in
   StockScreener.error final = StockScreener.generationFailure
   /\ StockScreener.screenerResults final = None
   /\ StockScreener.loading final = false)
  /\ (let final :=
        fst (run (Sample.answers (utf16 "Sorry, no JSON today"))
               (StockAnalyzer.handleAnalyze (parse := Sample.parseNothing _)
                  Sample.keyed Sample.analysing)) in
      StockAnalyzer.error final = StockAnalyzer.generationFailure
      /\ StockAnalyzer.analysis final = None
      /\ StockAnalyzer.loading final = false).
Proof.
  destruct (unparseable_response_fails (parseStocks := Sample.parseStocks)
              (parseAnalysis := Sample.parseNothing _)
              (Sample.answers (utf16 "Sorry, no JSON today")) Sample.keyed
              (utf16 "Sorry, no JSON today")) as [Hs Ha].
  split.
  - apply (Hs Sample.screening Sample.screenRequest).
    + vm_compute. reflexivity.
    + reflexivity.
    + vm_compute. reflexivity.
  - apply (Ha Sample.analysing Sample.analyzeRequest).
    + vm_compute. reflexivity.
    + reflexivity.
    + reflexivity.
Defined.

Lemma results_cleared_when_attempt_starts_witness :
  (exists calling request resume,
     StockScreener.handleScreen (parse := Sample.parseStocks) Sample.keyed
       (StockScreener.setScreenerResults (Some [Sample.candidate "OLD" 70])
          (StockScreener.setError StockScreener.emptyInput Sample.screening))
     = Awaits calling request resume
     /\ StockScreener.error calling = []
     /\ StockScreener.screenerResults calling = None)
  /\ StockScreener.screenerResults
       (StockScreener.setError StockScreener.missingCredential
          (StockScreener.setScreenerResults (Some [Sample.candidate "OLD" 70])
             Sample.screening))
     = Some [Sample.candidate "OLD" 70].
Proof.
  destruct (results_cleared_when_attempt_starts (parseStocks := Sample.parseStocks)
              (parseAnalysis := Sample.parseNothing _) Sample.keyed)
    as (Hstart & Hkeep & _ & _).
  split.
  - apply Hstart; vm_compute; reflexivity.
  - apply (Hkeep (StockScreener.Submit ∅)
             (StockScreener.setScreenerResults (Some [Sample.candidate "OLD" 70])
                Sample.screening)).
    reflexivity.
Defined.

Lemma empty_credential_is_missing_witness :
  let saved :=
    SettingsPage.storage
      (SettingsPage.handleSave Sample.keyed
         (SettingsPage.setApiKey [] (SettingsPage.mounted Sample.keyed))) in
  run (Sample.answers Sample.payload)
    (StockScreener.handleScreen (parse := Sample.parseStocks) saved Sample.screening)
  = (StockScreener.setError StockScreener.missingCredential Sample.screening, [])
  /\ run (Sample.answers Sample.payload)
       (StockAnalyzer.handleAnalyze (parse := Sample.parseNothing _) saved Sample.analysing)
     = (StockAnalyzer.setError StockAnalyzer.missingCredential Sample.analysing, [])
  /\ forall unset : Storage,
       getApiKey unset = None ->
       StockScreener.handleScreen (parse := Sample.parseStocks) saved Sample.screening
       = StockScreener.handleScreen (parse := Sample.parseStocks) unset Sample.screening
       /\ StockAnalyzer.handleAnalyze (parse := Sample.parseNothing _) saved Sample.analysing
          = StockAnalyzer.handleAnalyze (parse := Sample.parseNothing _) unset
              Sample.analysing.
Proof.
  apply (empty_credential_is_missing (parseStocks := Sample.parseStocks)
           (parseAnalysis := Sample.parseNothing _)).
  vm_compute. reflexivity.
Defined.

(** ** The examples of the specification *)

(** A mocked response with a candidate of score 58 and one of score 92 is
    rendered with the 92 first, in the ["high"] class, and the 58 second,
    in the ["low"] class. *)
Example screening_example_order :
  let final :=
    fst (run (Sample.answers Sample.payload)
           (StockScreener.handleScreen (parse := Sample.parseStocks)
              Sample.keyed Sample.screening)) in
  StockScreener.screenerResults final
  = Some [Sample.candidate "TOP" 92; Sample.candidate "LOW" 58]
  /\ map (fun stock => StockCard.getScoreClass (score stock))
       (default [] (StockScreener.screenerResults final))
     = [utf16 "high"; utf16 "low"]
  /\ StockScreener.error final = []
  /\ StockScreener.loading final = false.
Proof. vm_compute. auto. Qed.

(** The rating ["高风险"] of an analysed ticker gives the high-risk class. *)
Example analysis_example_risk :
  StockAnalyzer.getRiskClass (utf16 "高风险") = utf16 "risk-high".
Proof. reflexivity. Qed.

(** An empty ticker, with a credential stored: no call, and the
    empty-input message. *)
Example empty_ticker_example :
  run (Sample.answers Sample.payload)
    (StockAnalyzer.handleAnalyze (parse := Sample.parseNothing _)
       Sample.keyed StockAnalyzer.initial)
  = (StockAnalyzer.setError StockAnalyzer.emptyInput StockAnalyzer.initial, []).
Proof. reflexivity. Qed.

(** Equal scores: the stable sort keeps the payload order among them. *)
Example sort_ties_example :
  map ticker
    (Array_sort StockScreener.byScoreDescending
       [Sample.candidate "A" 70; Sample.candidate "B" 90; Sample.candidate "C" 70;
        Sample.candidate "D" 90])
  = [utf16 "B"; utf16 "D"; utf16 "A"; utf16 "C"].
Proof. reflexivity. Qed.

(** * Further properties of the code *)

(** ** When a submission calls, and what it sends *)

Section Requests.
Context {parseStocks : JSON (list RecommendedStock)}.
Context {parseAnalysis : JSON StockAnalysis}.

Lemma falsy_stored (localStorage : Storage) (k : jsstring) :
  getApiKey localStorage = Some k -> k <> [] -> falsy (getApiKey localStorage) = false.
Proof. intros -> Hk. destruct k; simpl; congruence. Qed.

Lemma handleScreen_request localStorage k st :
  getApiKey localStorage = Some k -> k <> [] ->
  blank (StockScreener.criteria st) = false ->
  issued (StockScreener.handleScreen localStorage st)
  = [ {| apiKey := k;
         model := utf16 "gemini-2.5-flash";
         contents := StockScreener.prompt (StockScreener.criteria st);
         responseMimeType := utf16 "application/json";
         responseSchema := screenerSchema |} ].
Proof.
  intros Hk Hne Hb. pose proof (falsy_stored _ _ Hk Hne) as Hf.
  unfold StockScreener.handleScreen. rewrite Hf.
  destruct (truthy (trim (StockScreener.criteria st))) eqn:Ht.
  - rewrite Hk. reflexivity.
  - apply trim_blank in Ht. congruence.
Qed.

Lemma handleAnalyze_request localStorage k st :
  getApiKey localStorage = Some k -> k <> [] ->
  blank (StockAnalyzer.ticker st) = false ->
  issued (StockAnalyzer.handleAnalyze localStorage st)
  = [ {| apiKey := k;
         model := utf16 "gemini-2.5-flash";
         contents := StockAnalyzer.prompt (StockAnalyzer.ticker st);
         responseMimeType := utf16 "application/json";
         responseSchema := analysisSchema |} ].
Proof.
  intros Hk Hne Hb. pose proof (falsy_stored _ _ Hk Hne) as Hf.
  unfold StockAnalyzer.handleAnalyze. rewrite Hf.
  destruct (truthy (trim (StockAnalyzer.ticker st))) eqn:Ht.
  - rewrite Hk. reflexivity.
  - apply trim_blank in Ht. congruence.
Qed.

(** X1: a submission issues a remote call exactly when the stored
    credential is a non-empty string and the input is not blank; there is
    never more than one call. *)
Theorem submission_calls_iff localStorage screening analysing :
  (issued (StockScreener.handleScreen localStorage screening) <> []
   <-> falsy (getApiKey localStorage) = false
       /\ blank (StockScreener.criteria screening) = false)
  /\ (issued (StockAnalyzer.handleAnalyze localStorage analysing) <> []
      <-> falsy (getApiKey localStorage) = false
          /\ blank (StockAnalyzer.ticker analysing) = false)
  /\ (length (issued (StockScreener.handleScreen localStorage screening)) <= 1)%nat
  /\ (length (issued (StockAnalyzer.handleAnalyze localStorage analysing)) <= 1)%nat.
Proof.
  split; [| split; [| split]].
  - destruct (falsy (getApiKey localStorage)) eqn:Hk.
    { rewrite handleScreen_no_credential by assumption. simpl.
      split; [congruence | intros [? _]; congruence]. }
    destruct (blank (StockScreener.criteria screening)) eqn:Hb.
    { rewrite handleScreen_blank by assumption. simpl.
      split; [congruence | intros [_ ?]; congruence]. }
    destruct (handleScreen_calls localStorage screening Hk Hb) as (rq & resume & E & _).
    rewrite E. simpl. split; [auto | congruence].
  - destruct (falsy (getApiKey localStorage)) eqn:Hk.
    { rewrite handleAnalyze_no_credential by assumption. simpl.
      split; [congruence | intros [? _]; congruence]. }
    destruct (blank (StockAnalyzer.ticker analysing)) eqn:Hb.
    { rewrite handleAnalyze_blank by assumption. simpl.
      split; [congruence | intros [_ ?]; congruence]. }
    destruct (handleAnalyze_calls localStorage analysing Hk Hb) as (rq & resume & E & _).
    rewrite E. simpl. split; [auto | congruence].
  - destruct (StockScreener.handleScreen localStorage screening); simpl; lia.
  - destruct (StockAnalyzer.handleAnalyze localStorage analysing); simpl; lia.
Qed.

(** X2: the one request of a submission carries the stored credential
    unchanged (it is neither trimmed nor validated), the model
    ["gemini-2.5-flash"], the JSON MIME type, the schema of the view and
    the prompt built from the input as typed, not trimmed. *)
Theorem request_sent localStorage k :
  getApiKey localStorage = Some k ->
  k <> [] ->
  (forall st,
     blank (StockScreener.criteria st) = false ->
     issued (StockScreener.handleScreen localStorage st)
     = [ {| apiKey := k;
            model := utf16 "gemini-2.5-flash";
            contents := StockScreener.prompt (StockScreener.criteria st);
            responseMimeType := utf16 "application/json";
            responseSchema := screenerSchema |} ])
  /\ (forall st,
        blank (StockAnalyzer.ticker st) = false ->
        issued (StockAnalyzer.handleAnalyze localStorage st)
        = [ {| apiKey := k;
               model := utf16 "gemini-2.5-flash";
               contents := StockAnalyzer.prompt (StockAnalyzer.ticker st);
               responseMimeType := utf16 "application/json";
               responseSchema := analysisSchema |} ]).
Proof.
  intros Hk Hne. split; intros st Hb.
  - now apply handleScreen_request.
  - now apply handleAnalyze_request.
Qed.

(** X3: the key saved on the settings page is the key of the next
    request: after [handleSave] with a non-empty field, a submission with
    non-blank input calls with exactly that key, whatever was stored
    before. *)
Theorem saved_key_is_sent localStorage (settings : SettingsPage.State) st request :
  SettingsPage.apiKey settings <> [] ->
  blank (StockScreener.criteria st) = false ->
  issued (StockScreener.handleScreen
            (SettingsPage.storage (SettingsPage.handleSave localStorage settings)) st)
  = [request] ->
  apiKey request = SettingsPage.apiKey settings.
Proof.
  intros Hne Hb Hcall.
  rewrite (handleScreen_request _ (SettingsPage.apiKey settings)) in Hcall; auto.
  - injection Hcall as <-. reflexivity.
  - apply getApiKey_setItem.
Qed.
(** X4: whether a submission calls, and with what, depends on the
    storage and on the input only, not on the rest of the view: the
    handlers do not look at the loading flag, so it is the disabled button
    alone that keeps a second call from starting while one is pending. *)
Theorem request_ignores_view_state localStorage :
  (forall st st',
     StockScreener.criteria st = StockScreener.criteria st' ->
     issued (StockScreener.handleScreen localStorage st)
     = issued (StockScreener.handleScreen localStorage st'))
  /\ (forall st st',
        StockAnalyzer.ticker st = StockAnalyzer.ticker st' ->
        issued (StockAnalyzer.handleAnalyze localStorage st)
        = issued (StockAnalyzer.handleAnalyze localStorage st')).
Proof.
  split; intros st st' E.
  - unfold StockScreener.handleScreen. rewrite E.
    destruct (falsy (getApiKey localStorage)); [reflexivity |].
    destruct (negb (truthy (trim (StockScreener.criteria st')))); reflexivity.
  - unfold StockAnalyzer.handleAnalyze. rewrite E.
    destruct (falsy (getApiKey localStorage)); [reflexivity |].
    destruct (negb (truthy (trim (StockAnalyzer.ticker st')))); reflexivity.
Qed.
End Requests.

(** ** The prompts *)

Lemma quoted_input_inj (head tail a b : jsstring) :
  head ++ dquote ++ a ++ dquote ++ tail = head ++ dquote ++ b ++ dquote ++ tail ->
  a = b.
Proof.
  intros H. apply app_inv_head in H. apply app_inv_head in H.
  now apply app_inv_tail in H.
Qed.

Lemma screening_prompt_shape :
  exists head tail : jsstring,
    forall input, StockScreener.prompt input = head ++ dquote ++ input ++ dquote ++ tail.
Proof. unfold StockScreener.prompt. eexists. eexists. intros input. reflexivity. Qed.

Lemma analysis_prompt_shape :
  exists head tail : jsstring,
    forall input, StockAnalyzer.prompt input = head ++ dquote ++ input ++ dquote ++ tail.
Proof. unfold StockAnalyzer.prompt. eexists. eexists. intros input. reflexivity. Qed.

(** X5: each prompt is a fixed text around the input, which stands in it
    unchanged (not trimmed, not escaped) between two double quotes; so
    different inputs give different prompts. *)
Theorem prompt_embeds_input :
  (exists head tail : jsstring,
     forall input,
       StockScreener.prompt input = head ++ dquote ++ input ++ dquote ++ tail)
  /\ (exists head tail : jsstring,
        forall input,
          StockAnalyzer.prompt input = head ++ dquote ++ input ++ dquote ++ tail)
  /\ (forall a b, StockScreener.prompt a = StockScreener.prompt b -> a = b)
  /\ (forall a b, StockAnalyzer.prompt a = StockAnalyzer.prompt b -> a = b).
Proof.
  split; [exact screening_prompt_shape |]. split; [exact analysis_prompt_shape |].
  split; intros a b H.
  - destruct screening_prompt_shape as (head & tail & E).
    rewrite !E in H. eapply quoted_input_inj. exact H.
  - destruct analysis_prompt_shape as (head & tail & E).
    rewrite !E in H. eapply quoted_input_inj. exact H.
Qed.

(** ** How a submission ends *)

Section Outcomes.
Context {parseStocks : JSON (list RecommendedStock)}.
Context {parseAnalysis : JSON StockAnalysis}.


(** X6: when the awaited call rejects (no network, a key the endpoint
    refuses), or resolves to a response without text, the submission ends
    like one with unparseable text: the failure message, no result, the
    loading flag down. *)
Theorem failed_call_fails remote localStorage :
  (forall st request,
     issued (StockScreener.handleScreen localStorage st) = [request] ->
     remote request = Rejects \/ remote request = Resolves None ->
     fst (run remote (StockScreener.handleScreen localStorage st))
     = {| StockScreener.criteria := StockScreener.criteria st;
          StockScreener.loading := false;
          StockScreener.error := StockScreener.generationFailure;
          StockScreener.screenerResults := None |})
  /\ (forall st request,
        issued (StockAnalyzer.handleAnalyze localStorage st) = [request] ->
        remote request = Rejects \/ remote request = Resolves None ->
        fst (run remote (StockAnalyzer.handleAnalyze localStorage st))
        = {| StockAnalyzer.ticker := StockAnalyzer.ticker st;
             StockAnalyzer.loading := false;
             StockAnalyzer.error := StockAnalyzer.generationFailure;
             StockAnalyzer.analysis := None |}).
Proof.
  split; intros st request Hcall [Hr | Hr].
  - rewrite (run_handleScreen remote _ _ _ Hcall), Hr. reflexivity.
  - rewrite (run_handleScreen remote _ _ _ Hcall), Hr. reflexivity.
  - rewrite (run_handleAnalyze remote _ _ _ Hcall), Hr. reflexivity.
  - rewrite (run_handleAnalyze remote _ _ _ Hcall), Hr. reflexivity.
Qed.

(** X7: when the call of a screening submission resolves to a text that
    parses, the submission ends with the parsed list sorted by
    [byScoreDescending] as the result, no error message, the loading flag
    down and the input as it was. *)
Theorem screening_success remote localStorage st request text resultData :
  issued (StockScreener.handleScreen localStorage st) = [request] ->
  remote request = Resolves (Some text) ->
  JSON_parse (trim text) = Some resultData ->
  fst (run remote (StockScreener.handleScreen localStorage st))
  = {| StockScreener.criteria := StockScreener.criteria st;
       StockScreener.loading := false;
       StockScreener.error := [];
       StockScreener.screenerResults :=
         Some (Array_sort StockScreener.byScoreDescending resultData) |}.
Proof.
  intros Hcall Hr Hparse.
  rewrite (run_handleScreen remote _ _ _ Hcall), Hr. simpl.
  rewrite Hparse. reflexivity.
Qed.

(** X8: the order on display is the only one the payload allows: any
    list that holds the parsed elements, is non-increasing by score and
    keeps the payload order among equal scores is the list rendered,
    whatever sorting algorithm produced it. *)
Theorem rendered_order_determined remote localStorage st request text resultData
    (expected : list RecommendedStock) :
  issued (StockScreener.handleScreen localStorage st) = [request] ->
  remote request = Resolves (Some text) ->
  JSON_parse (trim text) = Some resultData ->
  Forall (fun r => score r <> NaN) resultData ->
  Permutation expected resultData ->
  scoreDescending expected ->
  (forall v, List.filter (fun r => js_eq (score r) v) expected
             = List.filter (fun r => js_eq (score r) v) resultData) ->
  StockScreener.screenerResults
    (fst (run remote (StockScreener.handleScreen localStorage st)))
  = Some expected.
Proof.
  intros Hcall Hr Hparse Hnum Hperm Hsorted Hstable.
  rewrite (run_handleScreen remote _ _ _ Hcall), Hr. simpl.
  rewrite Hparse. simpl. f_equal. symmetry.
  now apply Array_sort_byScore_unique.
Qed.

(** X9: when the call of an analysis submission resolves to a text that
    parses, the report is stored exactly as parsed; no error message, the
    loading flag down, the ticker as it was. *)
Theorem analysis_success remote localStorage st request text report :
  issued (StockAnalyzer.handleAnalyze localStorage st) = [request] ->
  remote request = Resolves (Some text) ->
  JSON_parse (trim text) = Some report ->
  fst (run remote (StockAnalyzer.handleAnalyze localStorage st))
  = {| StockAnalyzer.ticker := StockAnalyzer.ticker st;
       StockAnalyzer.loading := false;
       StockAnalyzer.error := [];
       StockAnalyzer.analysis := Some report |}.
Proof.
  intros Hcall Hr Hparse.
  rewrite (run_handleAnalyze remote _ _ _ Hcall), Hr. simpl.
  rewrite Hparse. reflexivity.
Qed.


(** X11: the loading flag, which disables the button, is up when the
    handler suspends at its call and down again once the handler has
    resumed, for every response and whatever happened to the state in
    between. *)
Theorem loading_brackets_the_call localStorage :
  (forall st calling request resume,
     StockScreener.handleScreen localStorage st = Awaits calling request resume ->
     StockScreener.loading calling = true
     /\ forall response now, StockScreener.loading (resume response now) = false)
  /\ (forall st calling request resume,
        StockAnalyzer.handleAnalyze localStorage st = Awaits calling request resume ->
        StockAnalyzer.loading calling = true
        /\ forall response now, StockAnalyzer.loading (resume response now) = false).
Proof.
  split; intros st calling request resume H.
  - assert (Hi : issued (StockScreener.handleScreen localStorage st) = [request])
      by now rewrite H.
    destruct (handleScreen_issued _ _ _ Hi) as [Hk Hb].
    destruct (handleScreen_calls localStorage st Hk Hb) as (rq & k & E & Hr).
    rewrite E in H. injection H as <- <- <-.
    split; [reflexivity |]. intros response now. rewrite Hr. reflexivity.
  - assert (Hi : issued (StockAnalyzer.handleAnalyze localStorage st) = [request])
      by now rewrite H.
    destruct (handleAnalyze_issued _ _ _ Hi) as [Hk Hb].
    destruct (handleAnalyze_calls localStorage st Hk Hb) as (rq & k & E & Hr).
    rewrite E in H. injection H as <- <- <-.
    split; [reflexivity |]. intros response now. rewrite Hr. reflexivity.
Qed.

(** X12: a submission never touches the input field: a refused one
    returns with the input it found, and one that calls suspends with it
    and resumes without changing what the field holds by then (the user
    may have edited it in between). *)
Theorem input_survives_submission localStorage :
  (forall st,
     match StockScreener.handleScreen localStorage st with
     | Returns st' => StockScreener.criteria st' = StockScreener.criteria st
     | Awaits calling _ resume =>
       StockScreener.criteria calling = StockScreener.criteria st
       /\ forall response now,
            StockScreener.criteria (resume response now) = StockScreener.criteria now
     end)
  /\ (forall st,
        match StockAnalyzer.handleAnalyze localStorage st with
        | Returns st' => StockAnalyzer.ticker st' = StockAnalyzer.ticker st
        | Awaits calling _ resume =>
          StockAnalyzer.ticker calling = StockAnalyzer.ticker st
          /\ forall response now,
               StockAnalyzer.ticker (resume response now) = StockAnalyzer.ticker now
        end).
Proof.
  split; intros st.
  - destruct (falsy (getApiKey localStorage)) eqn:Hk.
    { now rewrite handleScreen_no_credential. }
    destruct (blank (StockScreener.criteria st)) eqn:Hb.
    { now rewrite handleScreen_blank. }
    destruct (handleScreen_calls localStorage st Hk Hb) as (rq & k & E & Hr).
    rewrite E. split; [reflexivity |]. intros response now. rewrite Hr.
    destruct (StockScreener.received response); reflexivity.
  - destruct (falsy (getApiKey localStorage)) eqn:Hk.
    { now rewrite handleAnalyze_no_credential. }
    destruct (blank (StockAnalyzer.ticker st)) eqn:Hb.
    { now rewrite handleAnalyze_blank. }
    destruct (handleAnalyze_calls localStorage st Hk Hb) as (rq & k & E & Hr).
    rewrite E. split; [reflexivity |]. intros response now. rewrite Hr.
    destruct (StockAnalyzer.received response); reflexivity.
Qed.

(** X13: a submission that a check stops changes the error message and
    nothing else: the input, the loading flag and a result on display stay
    as they are, so the message appears beside the earlier result; and the
    message is the missing-credential or the empty-input one. *)
Theorem refused_submission_only_sets_error localStorage :
  (forall st st',
     StockScreener.handleScreen localStorage st = Returns st' ->
     st' = StockScreener.setError (StockScreener.error st') st
     /\ (StockScreener.error st' = StockScreener.missingCredential
         \/ StockScreener.error st' = StockScreener.emptyInput))
  /\ (forall st st',
        StockAnalyzer.handleAnalyze localStorage st = Returns st' ->
        st' = StockAnalyzer.setError (StockAnalyzer.error st') st
        /\ (StockAnalyzer.error st' = StockAnalyzer.missingCredential
            \/ StockAnalyzer.error st' = StockAnalyzer.emptyInput)).
Proof.
  split; intros st st' H.
  - destruct (falsy (getApiKey localStorage)) eqn:Hk.
    { rewrite handleScreen_no_credential in H by assumption.
      injection H as <-. cbn [StockScreener.error StockScreener.setError].
      split; [reflexivity | left; reflexivity]. }
    destruct (blank (StockScreener.criteria st)) eqn:Hb.
    { rewrite handleScreen_blank in H by assumption.
      injection H as <-. cbn [StockScreener.error StockScreener.setError].
      split; [reflexivity | right; reflexivity]. }
    destruct (handleScreen_calls localStorage st Hk Hb) as (rq & k & E & _).
    rewrite E in H. discriminate.
  - destruct (falsy (getApiKey localStorage)) eqn:Hk.
    { rewrite handleAnalyze_no_credential in H by assumption.
      injection H as <-. cbn [StockAnalyzer.error StockAnalyzer.setError].
      split; [reflexivity | left; reflexivity]. }
    destruct (blank (StockAnalyzer.ticker st)) eqn:Hb.
    { rewrite handleAnalyze_blank in H by assumption.
      injection H as <-. cbn [StockAnalyzer.error StockAnalyzer.setError].
      split; [reflexivity | right; reflexivity]. }
    destruct (handleAnalyze_calls localStorage st Hk Hb) as (rq & k & E & _).
    rewrite E in H. discriminate.
Qed.
End Outcomes.

(** ** The order of the cards *)

Lemma num_le_refl (x : number) : x <> NaN -> num_le x x.
Proof. destruct x; simpl; try congruence; auto. intros _. apply Qle_refl. Qed.

Lemma sort_byScore_sorted_id (l : list RecommendedStock) :
  Forall (fun r => score r <> NaN) l ->
  scoreDescending l ->
  Array_sort StockScreener.byScoreDescending l = l.
Proof.
  intros Hnum Hsorted. symmetry.
  apply Array_sort_byScore_unique; auto.
Qed.

(** X14: a list that is already non-increasing by score comes out of the
    sort as it went in, ties included; so sorting a second time changes
    nothing. *)
Theorem sort_keeps_sorted (l : list RecommendedStock) :
  Forall (fun r => score r <> NaN) l ->
  (scoreDescending l -> Array_sort StockScreener.byScoreDescending l = l)
  /\ Array_sort StockScreener.byScoreDescending
       (Array_sort StockScreener.byScoreDescending l)
     = Array_sort StockScreener.byScoreDescending l.
Proof.
  intros Hnum. split.
  - now apply sort_byScore_sorted_id.
  - apply sort_byScore_sorted_id.
    + now rewrite (Array_sort_perm StockScreener.byScoreDescending l).
    + now apply sort_byScore_descending.
Qed.

Lemma sort_keeps_sorted_witness :
  let shown :=
    [Sample.candidate "B" 90; Sample.candidate "D" 90; Sample.candidate "A" 70] in
  Array_sort StockScreener.byScoreDescending shown = shown
  /\ Array_sort StockScreener.byScoreDescending
       (Array_sort StockScreener.byScoreDescending shown)
     = Array_sort StockScreener.byScoreDescending shown.
Proof.
  intros shown.
  destruct (sort_keeps_sorted shown) as [Hid Htwice].
  - repeat constructor; discriminate.
  - split; [| exact Htwice].
    apply Hid. repeat constructor; vm_compute; discriminate.
Defined.

(** X15: the first card is a best match: no parsed candidate has a higher
    score than the first element of the sorted list. *)
Theorem best_match_first (resultData : list RecommendedStock) first rest :
  Forall (fun r => score r <> NaN) resultData ->
  Array_sort StockScreener.byScoreDescending resultData = first :: rest ->
  forall r, In r resultData -> num_le (score r) (score first).
Proof.
  intros Hnum E r Hr.
  pose proof (sort_byScore_descending resultData Hnum) as Hsorted.
  pose proof (Array_sort_perm StockScreener.byScoreDescending resultData) as Hperm.
  rewrite E in Hsorted, Hperm.
  assert (Hin : In r (first :: rest)).
  { eapply Permutation_in; [symmetry; exact Hperm | exact Hr]. }
  destruct Hin as [-> | Hin].
  - apply num_le_refl. rewrite List.Forall_forall in Hnum. auto.
  - eapply scoreDescending_head; eauto.
Qed.

Lemma best_match_first_witness :
  num_le (score (Sample.candidate "LOW" 58)) (score (Sample.candidate "TOP" 92)).
Proof.
  apply (best_match_first [Sample.candidate "LOW" 58; Sample.candidate "TOP" 92]
           (Sample.candidate "TOP" 92) [Sample.candidate "LOW" 58]).
  - repeat constructor; discriminate.
  - reflexivity.
  - simpl. left. reflexivity.
Defined.

(** ** The score classes along the list *)

Lemma getScoreClass_cases (s : number) :
  (js_ge s (num 85) = true /\ StockCard.getScoreClass s = utf16 "high")
  \/ (js_ge s (num 85) = false /\ js_ge s (num 60) = true
      /\ StockCard.getScoreClass s = utf16 "medium")
  \/ (js_ge s (num 85) = false /\ js_ge s (num 60) = false
      /\ StockCard.getScoreClass s = utf16 "low").
Proof.
  unfold StockCard.getScoreClass.
  destruct (js_ge s (num 85)); [now left |].
  destruct (js_ge s (num 60)); [right; left | right; right]; auto.
Qed.

Lemma js_ge_mono (s t bound : number) :
  num_le s t -> js_ge s bound = true -> js_ge t bound = true.
Proof.
  unfold js_ge. rewrite !js_le_num_le. intros Hst Hs.
  eapply num_le_trans; eauto.
Qed.



Lemma cardClass_mono (a b : RecommendedStock) :
  num_le (score b) (score a) ->
  (cardClass b = utf16 "high" -> cardClass a = utf16 "high")
  /\ (cardClass a = utf16 "low" -> cardClass b = utf16 "low").
Proof.
  unfold cardClass, StockCard.getScoreClass. intros Hba.
  pose proof (js_ge_mono _ _ (num 85) Hba) as M85.
  pose proof (js_ge_mono _ _ (num 60) Hba) as M60.
  assert (M : js_ge (score b) (num 85) = true -> js_ge (score b) (num 60) = true).
  { unfold js_ge. rewrite !js_le_num_le. intros H.
    eapply num_le_trans; [| exact H]. vm_compute. discriminate. }
  destruct (js_ge (score b) (num 85)), (js_ge (score b) (num 60)),
    (js_ge (score a) (num 85)), (js_ge (score a) (num 60));
    split; intros; try reflexivity; try discriminate;
    try (specialize (M85 eq_refl)); try (specialize (M60 eq_refl));
    try (specialize (M eq_refl)); congruence.
Qed.

Lemma cardClass_cases (a : RecommendedStock) :
  cardClass a = utf16 "high" \/ cardClass a = utf16 "medium" \/ cardClass a = utf16 "low".
Proof.
  unfold cardClass.
  destruct (getScoreClass_cases (score a)) as [[_ C] | [(_ & _ & C) | (_ & _ & C)]]; auto.
Qed.

Lemma classes_no_high (l : list RecommendedStock) (h m w : nat) :
  Forall (fun b => cardClass b <> utf16 "high") l ->
  map cardClass l
  = replicate h (utf16 "high") ++ replicate m (utf16 "medium") ++ replicate w (utf16 "low") ->
  h = O.
Proof.
  intros Hall E. destruct h as [| h]; [reflexivity |].
  destruct l as [| b l]; [discriminate |].
  simpl in E. injection E as E _. inversion Hall; subst. contradiction.
Qed.

Lemma classes_all_low (l : list RecommendedStock) :
  Forall (fun b => cardClass b = utf16 "low") l ->
  map cardClass l = replicate (length l) (utf16 "low").
Proof.
  induction 1 as [| b l Hb _ IH]; simpl; [reflexivity |]. now rewrite Hb, IH.
Qed.

Lemma scoreDescending_classes (l : list RecommendedStock) :
  scoreDescending l ->
  exists h m w : nat,
    map cardClass l
    = replicate h (utf16 "high") ++ replicate m (utf16 "medium")
      ++ replicate w (utf16 "low").
Proof.
  induction 1 as [| a l Hl IH Ha].
  - exists O, O, O. reflexivity.
  - destruct IH as (h & m & w & E).
    destruct (cardClass_cases a) as [C | [C | C]].
    + exists (S h), m, w. simpl. now rewrite C, E.
    + assert (h = O).
      { eapply classes_no_high; [| exact E].
        eapply Forall_impl; [exact Ha |]. simpl. intros b Hba Hb.
        destruct (cardClass_mono a b Hba) as [Hh _].
        rewrite (Hh Hb) in C. discriminate. }
      subst h. exists O, (S m), w. simpl. now rewrite C, E.
    + exists O, O, (S (length l)). simpl. rewrite C. f_equal.
      apply classes_all_low.
      eapply Forall_impl; [exact Ha |]. simpl. intros b Hba.
      now apply (cardClass_mono a b Hba).
Qed.

(** X17: down the list of cards the classes read ["high"] on some cards,
    then ["medium"] on some, then ["low"] on the rest: no card of a lower
    class stands above a card of a higher class. *)
Theorem cards_grouped_by_class (resultData : list RecommendedStock) :
  Forall (fun r => score r <> NaN) resultData ->
  exists h m w : nat,
    map cardClass (Array_sort StockScreener.byScoreDescending resultData)
    = replicate h (utf16 "high") ++ replicate m (utf16 "medium")
      ++ replicate w (utf16 "low")
    /\ (h + m + w = length resultData)%nat.
Proof.
  intros Hnum.
  destruct (scoreDescending_classes _ (sort_byScore_descending _ Hnum))
    as (h & m & w & E).
  exists h, m, w. split; [exact E |].
  apply (f_equal length) in E.
  rewrite length_map, !length_app, !length_replicate in E.
  rewrite (Permutation_length (Array_sort_perm StockScreener.byScoreDescending resultData))
    in E.
  lia.
Qed.

Lemma cards_grouped_by_class_witness :
  exists h m w : nat,
    map cardClass
      (Array_sort StockScreener.byScoreDescending
         [Sample.candidate "LOW" 58; Sample.candidate "MID" 70; Sample.candidate "TOP" 92])
    = replicate h (utf16 "high") ++ replicate m (utf16 "medium")
      ++ replicate w (utf16 "low")
    /\ (h + m + w
        = length [Sample.candidate "LOW" 58; Sample.candidate "MID" 70;
                  Sample.candidate "TOP" 92])%nat.
Proof.
  apply (cards_grouped_by_class
           [Sample.candidate "LOW" 58; Sample.candidate "MID" 70; Sample.candidate "TOP" 92]).
  repeat constructor; discriminate.
Defined.

(** ** The settings page and the credential slot *)

(** X18: [handleSave] overwrites: after two saves the slot holds the
    second value, and the storage is the one a single save of the second
    value gives. *)
Theorem save_overwrites (localStorage : Storage) (first second : SettingsPage.State) :
  let once := SettingsPage.storage (SettingsPage.handleSave localStorage second) in
  let twice :=
    SettingsPage.storage
      (SettingsPage.handleSave
         (SettingsPage.storage (SettingsPage.handleSave localStorage first)) second) in
  getApiKey twice = Some (SettingsPage.apiKey second) /\ twice = once.
Proof.
  simpl. split.
  - apply getApiKey_setItem.
  - unfold setItem. apply insert_insert_eq.
Qed.

(** X19: [handleSave] writes the credential slot only: every other key of
    the storage keeps its value, or stays absent. *)
Theorem save_leaves_other_keys (localStorage : Storage) (st : SettingsPage.State)
    (key : jsstring) :
  key <> utf16 "gemini_api_key" ->
  getItem (SettingsPage.storage (SettingsPage.handleSave localStorage st)) key
  = getItem localStorage key.
Proof.
  intros Hkey. unfold SettingsPage.handleSave, getItem, setItem.
  cbn [SettingsPage.storage]. apply lookup_insert_ne. congruence.
Qed.

Lemma save_leaves_other_keys_witness :
  getItem
    (SettingsPage.storage
       (SettingsPage.handleSave {[ utf16 "theme" := utf16 "dark" ]}
          (SettingsPage.setApiKey (utf16 "AIza-sample") SettingsPage.initial)))
    (utf16 "theme")
  = getItem {[ utf16 "theme" := utf16 "dark" ]} (utf16 "theme").
Proof.
  apply (save_leaves_other_keys {[ utf16 "theme" := utf16 "dark" ]}
           (SettingsPage.setApiKey (utf16 "AIza-sample") SettingsPage.initial)
           (utf16 "theme")).
  vm_compute. discriminate.
Defined.

(** X20: the settings page comes back with what was saved: mounted on the
    storage that [handleSave] leaves, its field holds the saved string
    (the empty one included), and no save message. *)
Theorem settings_reopen_shows_saved (localStorage : Storage) (st : SettingsPage.State) :
  SettingsPage.mounted (SettingsPage.storage (SettingsPage.handleSave localStorage st))
  = {| SettingsPage.apiKey := SettingsPage.apiKey st; SettingsPage.saveMessage := [] |}.
Proof.
  unfold SettingsPage.mounted. simpl SettingsPage.storage.
  rewrite getApiKey_setItem.
  destruct (SettingsPage.apiKey st); reflexivity.
Qed.

(** ** The schema and the risk class *)

(** X21: the ratings that the response schema allows are the ratings that
    [getRiskClass] gives a class to: a report that conforms to the schema
    always gets a risk class, and no other rating gets one. *)
Theorem schema_ratings_have_class :
  exists allowed,
    ratingEnum = Some allowed
    /\ forall rating, In rating allowed <-> StockAnalyzer.getRiskClass rating <> [].
Proof.
  eexists. split; [reflexivity |]. intros rating.
  unfold StockAnalyzer.getRiskClass. simpl In. split.
  - intros [<- | [<- | [<- | []]]]; discriminate.
  - destruct (str_eq rating (utf16 "高风险")) eqn:Hh.
    { apply str_eq_true in Hh. auto. }
    destruct (str_eq rating (utf16 "中等风险")) eqn:Hm.
    { apply str_eq_true in Hm. auto. }
    destruct (str_eq rating (utf16 "低风险")) eqn:Hl.
    { apply str_eq_true in Hl. auto. }
    congruence.
Qed.

(** ** The application shell *)

(** X22: on every page exactly one navigation button carries the class
    ["active"], and it is the button that selects the page shown. *)
Theorem one_active_button (page : App.Page) :
  map App.onClick
    (List.filter (fun b => str_eq (App.className b) (utf16 "active")) (App.nav page))
  = [page].
Proof. destruct page; reflexivity. Qed.

(** X23: a view that is left is lost: after a click on another page and
    a click back, the page is mounted afresh, whatever it held before
    (result, message, input); a click on the button of the page shown
    changes nothing. *)
Theorem leaving_a_view_discards_it (first second : Storage) (away : App.Page)
    (st : App.State) :
  away <> App.page st ->
  App.setPage second (App.page st) (App.setPage first away st)
  = {| App.page := App.page st; App.main := App.renderPage second (App.page st) |}
  /\ App.setPage first (App.page st) st = st.
Proof.
  intros Haway. unfold App.setPage. split.
  - destruct (decide (App.page st = away)) as [E | _]; [congruence |].
    cbn [App.page]. destruct (decide (away = App.page st)); [contradiction | reflexivity].
  - destruct (decide (App.page st = App.page st)); [reflexivity | contradiction].
Qed.

(** ** The further properties at sample inputs *)

Lemma request_sent_witness :
  issued (StockScreener.handleScreen (parse := Sample.parseStocks)
            Sample.keyed Sample.screening)
  = [Sample.screenRequest]
  /\ issued (StockAnalyzer.handleAnalyze (parse := Sample.parseReport)
               Sample.keyed Sample.analysing)
     = [Sample.analyzeRequest].
Proof.
  assert (Hkey : getApiKey Sample.keyed = Some (utf16 "AIza-sample")) by reflexivity.
  assert (Hne : utf16 "AIza-sample" <> []) by (vm_compute; discriminate).
  destruct (request_sent (parseStocks := Sample.parseStocks)
              (parseAnalysis := Sample.parseReport)
              Sample.keyed (utf16 "AIza-sample") Hkey Hne) as [Hs Ha].
  assert (Hcriteria : blank (StockScreener.criteria Sample.screening) = false)
    by (vm_compute; reflexivity).
  assert (Hticker : blank (StockAnalyzer.ticker Sample.analysing) = false)
    by (vm_compute; reflexivity).
  pose proof (Hs Sample.screening Hcriteria) as Hscreen.
  pose proof (Ha Sample.analysing Hticker) as Hanalyze.
  vm_compute in Hscreen, Hanalyze. vm_compute. split; assumption.
Defined.


Lemma saved_key_is_sent_witness :
  apiKey Sample.screenRequest
  = SettingsPage.apiKey
      (SettingsPage.setApiKey (utf16 "AIza-sample") SettingsPage.initial).
Proof.
  assert (Hne : SettingsPage.apiKey
                  (SettingsPage.setApiKey (utf16 "AIza-sample") SettingsPage.initial)
                <> []) by (vm_compute; discriminate).
  assert (Hcriteria : blank (StockScreener.criteria Sample.screening) = false)
    by (vm_compute; reflexivity).
  assert (Hcall :
            issued (StockScreener.handleScreen (parse := Sample.parseStocks)
                      (SettingsPage.storage
                         (SettingsPage.handleSave ∅
                            (SettingsPage.setApiKey (utf16 "AIza-sample")
                               SettingsPage.initial)))
                      Sample.screening)
            = [Sample.screenRequest]) by (vm_compute; reflexivity).
  exact (saved_key_is_sent (parseStocks := Sample.parseStocks) ∅
           (SettingsPage.setApiKey (utf16 "AIza-sample") SettingsPage.initial)
           Sample.screening Sample.screenRequest Hne Hcriteria Hcall).
Defined.


Lemma failed_call_fails_witness :
  fst (run Sample.rejects
         (StockScreener.handleScreen (parse := Sample.parseStocks)
            Sample.keyed Sample.showing))
  = {| StockScreener.criteria := Sample.criteria;
       StockScreener.loading := false;
       StockScreener.error := StockScreener.generationFailure;
       StockScreener.screenerResults := None |}
  /\ fst (run Sample.rejects
            (StockAnalyzer.handleAnalyze (parse := Sample.parseReport)
               Sample.keyed Sample.analysing))
     = {| StockAnalyzer.ticker := utf16 "AAPL";
          StockAnalyzer.loading := false;
          StockAnalyzer.error := StockAnalyzer.generationFailure;
          StockAnalyzer.analysis := None |}.
Proof.
  destruct (failed_call_fails (parseStocks := Sample.parseStocks)
              (parseAnalysis := Sample.parseReport) Sample.rejects Sample.keyed)
    as [Hs Ha].
  assert (Hscreen :
            issued (StockScreener.handleScreen (parse := Sample.parseStocks)
                      Sample.keyed Sample.showing) = [Sample.screenRequest])
    by (vm_compute; reflexivity).
  assert (Hanalyze :
            issued (StockAnalyzer.handleAnalyze (parse := Sample.parseReport)
                      Sample.keyed Sample.analysing) = [Sample.analyzeRequest])
    by (vm_compute; reflexivity).
  pose proof (Hs Sample.showing Sample.screenRequest Hscreen (or_introl eq_refl)) as Es.
  pose proof (Ha Sample.analysing Sample.analyzeRequest Hanalyze (or_introl eq_refl)) as Ea.
  vm_compute in Es, Ea. vm_compute. split; assumption.
Defined.


Lemma screening_success_witness :
  fst (run (Sample.answers Sample.payload)
         (StockScreener.handleScreen (parse := Sample.parseStocks)
            Sample.keyed Sample.screening))
  = {| StockScreener.criteria := StockScreener.criteria Sample.screening;
       StockScreener.loading := false;
       StockScreener.error := [];
       StockScreener.screenerResults :=
         Some (Array_sort StockScreener.byScoreDescending
                 [Sample.candidate "LOW" 58; Sample.candidate "TOP" 92]) |}.
Proof.
  assert (Hcall :
            issued (StockScreener.handleScreen (parse := Sample.parseStocks)
                      Sample.keyed Sample.screening) = [Sample.screenRequest])
    by (vm_compute; reflexivity).
  assert (Hparse :
            JSON_parse (JSON := Sample.parseStocks) (trim Sample.payload)
            = Some [Sample.candidate "LOW" 58; Sample.candidate "TOP" 92])
    by (vm_compute; reflexivity).
  pose proof (screening_success (parseStocks := Sample.parseStocks)
                (Sample.answers Sample.payload) Sample.keyed Sample.screening
                Sample.screenRequest Sample.payload _ Hcall eq_refl Hparse) as E.
  vm_compute in E. vm_compute. exact E.
Defined.


Lemma rendered_order_determined_witness :
  StockScreener.screenerResults
    (fst (run (Sample.answers Sample.payload)
            (StockScreener.handleScreen (parse := Sample.parseStocks)
               Sample.keyed Sample.screening)))
  = Some [Sample.candidate "TOP" 92; Sample.candidate "LOW" 58].
Proof.
  assert (Hcall :
            issued (StockScreener.handleScreen (parse := Sample.parseStocks)
                      Sample.keyed Sample.screening) = [Sample.screenRequest])
    by (vm_compute; reflexivity).
  assert (Hparse :
            JSON_parse (JSON := Sample.parseStocks) (trim Sample.payload)
            = Some [Sample.candidate "LOW" 58; Sample.candidate "TOP" 92])
    by (vm_compute; reflexivity).
  assert (Hnum : Forall (fun r => score r <> NaN)
                   [Sample.candidate "LOW" 58; Sample.candidate "TOP" 92])
    by (repeat constructor; discriminate).
  assert (Hsorted : scoreDescending
                      [Sample.candidate "TOP" 92; Sample.candidate "LOW" 58])
    by (repeat constructor; vm_compute; discriminate).
  assert (Hstable :
            forall v,
              List.filter (fun r => js_eq (score r) v)
                [Sample.candidate "TOP" 92; Sample.candidate "LOW" 58]
              = List.filter (fun r => js_eq (score r) v)
                  [Sample.candidate "LOW" 58; Sample.candidate "TOP" 92]).
  { intros v. cbn [List.filter score Sample.candidate].
    destruct (js_eq (num 92) v) eqn:Htop, (js_eq (num 58) v) eqn:Hlow; try reflexivity.
    pose proof (js_eq_not_lt _ _ _ Hlow Htop) as Hlt. vm_compute in Hlt. discriminate. }
  pose proof (rendered_order_determined (parseStocks := Sample.parseStocks)
                (Sample.answers Sample.payload) Sample.keyed Sample.screening
                Sample.screenRequest Sample.payload _ _
                Hcall eq_refl Hparse Hnum (perm_swap _ _ _) Hsorted Hstable) as E.
  vm_compute in E. vm_compute. exact E.
Defined.


Lemma analysis_success_witness :
  fst (run (Sample.answers Sample.reportPayload)
         (StockAnalyzer.handleAnalyze (parse := Sample.parseReport)
            Sample.keyed Sample.analysing))
  = {| StockAnalyzer.ticker := StockAnalyzer.ticker Sample.analysing;
       StockAnalyzer.loading := false;
       StockAnalyzer.error := [];
       StockAnalyzer.analysis := Some Sample.report |}.
Proof.
  assert (Hcall :
            issued (StockAnalyzer.handleAnalyze (parse := Sample.parseReport)
                      Sample.keyed Sample.analysing) = [Sample.analyzeRequest])
    by (vm_compute; reflexivity).
  assert (Hparse :
            JSON_parse (JSON := Sample.parseReport) (trim Sample.reportPayload)
            = Some Sample.report) by (vm_compute; reflexivity).
  pose proof (analysis_success (parseAnalysis := Sample.parseReport)
                (Sample.answers Sample.reportPayload) Sample.keyed Sample.analysing
                Sample.analyzeRequest Sample.reportPayload _ Hcall eq_refl Hparse) as E.
  vm_compute in E. vm_compute. exact E.
Defined.




Lemma refused_submission_only_sets_error_witness :
  StockScreener.setError StockScreener.missingCredential Sample.showing
  = StockScreener.setError
      (StockScreener.error
         (StockScreener.setError StockScreener.missingCredential Sample.showing))
      Sample.showing
  /\ (StockScreener.error
        (StockScreener.setError StockScreener.missingCredential Sample.showing)
      = StockScreener.missingCredential
      \/ StockScreener.error
           (StockScreener.setError StockScreener.missingCredential Sample.showing)
         = StockScreener.emptyInput).
Proof.
  assert (Hrefused :
            StockScreener.handleScreen (parse := Sample.parseStocks) ∅ Sample.showing
            = Returns (StockScreener.setError StockScreener.missingCredential
                         Sample.showing)) by reflexivity.
  exact (proj1 (refused_submission_only_sets_error (parseStocks := Sample.parseStocks)
                  (parseAnalysis := Sample.parseReport) ∅)
           Sample.showing _ Hrefused).
Defined.


Lemma leaving_a_view_discards_it_witness :
  let held := {| App.page := App.screener; App.main := App.OfStockScreener Sample.showing |} in
  App.setPage Sample.keyed App.screener (App.setPage Sample.keyed App.settings held)
  = {| App.page := App.screener; App.main := App.OfStockScreener StockScreener.initial |}
  /\ App.setPage Sample.keyed App.screener held = held.
Proof.
  apply (leaving_a_view_discards_it Sample.keyed Sample.keyed App.settings
           {| App.page := App.screener; App.main := App.OfStockScreener Sample.showing |}).
  discriminate.
Defined.

Lemma loading_brackets_the_call_witness :
  exists calling request resume,
    StockScreener.handleScreen (parse := Sample.parseStocks) Sample.keyed Sample.screening
    = Awaits calling request resume
    /\ StockScreener.loading calling = true
    /\ forall response now, StockScreener.loading (resume response now) = false.
Proof.
  destruct (handleScreen_calls (parseStocks := Sample.parseStocks)
              Sample.keyed Sample.screening) as (request & resume & E & _).
  - vm_compute. reflexivity.
  - vm_compute. reflexivity.
  - eexists _, request, resume. split; [exact E |].
    exact (proj1 (loading_brackets_the_call (parseStocks := Sample.parseStocks)
                    (parseAnalysis := Sample.parseReport) Sample.keyed)
             Sample.screening _ request resume E).
Defined.

Lemma request_ignores_view_state_witness :
  issued (StockScreener.handleScreen (parse := Sample.parseStocks) Sample.keyed
            Sample.screening)
  = issued (StockScreener.handleScreen (parse := Sample.parseStocks) Sample.keyed
              (StockScreener.setLoading true Sample.showing)).
Proof.
  exact (proj1 (request_ignores_view_state (parseStocks := Sample.parseStocks)
                  (parseAnalysis := Sample.parseReport) Sample.keyed)
           Sample.screening (StockScreener.setLoading true Sample.showing) eq_refl).
Defined.
